(** * LunaTV presentation components: chat modal, settings form, video card

    A shallow embedding of the three components of the repository

      - [src/components/YouTubeVideoCard.tsx]   (module [Card])
      - [src/components/AIRecommendModal.tsx]   (module [Chat])
      - [src/components/AIRecommendConfig.tsx]  (module [Config])

    together with the part of the JavaScript runtime they rely on
    (module [Js]): strings as sequences of UTF-16 code units, [trim],
    [substring], [slice], numbers with [NaN], truthiness. *)

From Stdlib Require Import ZArith QArith List Bool Lia String Ascii.
From stdpp Require Import base option list gmap.

Local Open Scope Z_scope.

(* ===================================================================== *)
(** * JavaScript values *)
(* ===================================================================== *)

Module Js.

(** A JavaScript string is a finite sequence of UTF-16 code units;
    [length], [substring] and [trim] all work on code units. *)
Abbreviation JsString := (list N).

(** An ASCII literal of the source. *)
Definition lit (s : string) : JsString :=
  List.map N_of_ascii (list_ascii_of_string s).

(** [WhiteSpace] and [LineTerminator] code points of ECMAScript, the ones
    [String.prototype.trim] removes. *)
Definition isWhiteSpace (c : N) : bool :=
  ((9 <=? c) && (c <=? 13) || (c =? 32) || (c =? 160) || (c =? 5760)
   || (8192 <=? c) && (c <=? 8202)
   || (c =? 8232) || (c =? 8233) || (c =? 8239) || (c =? 8287)
   || (c =? 12288) || (c =? 65279))%N.

Fixpoint trimStart (s : JsString) : JsString :=
  match s with
  | c :: s' => if isWhiteSpace c then trimStart s' else s
  | [] => []
  end.

Definition trimEnd (s : JsString) : JsString :=
  rev (trimStart (rev s)).

(** [s.trim()] *)
Definition trim (s : JsString) : JsString := trimEnd (trimStart s).

(** Truthiness of a string: only the empty string is falsy. *)
Definition truthy (s : JsString) : bool :=
  match s with [] => false | _ :: _ => true end.

(** Truthiness of a possibly absent ([undefined]) string. *)
Definition truthy_opt (o : option JsString) : bool :=
  match o with Some s => truthy s | None => false end.

(** [a || b] where [a] may be [undefined] or empty. *)
Definition or_else (a : option JsString) (b : JsString) : JsString :=
  match a with
  | Some s => if truthy s then s else b
  | None => b
  end.

(** [s.substring(start, end)]: both indices are clamped to
    [0 .. s.length] and swapped when out of order. *)
Definition substring (s : JsString) (start finish : Z) : JsString :=
  let len := Z.of_nat (length s) in
  let a := Z.min (Z.max start 0) len in
  let b := Z.min (Z.max finish 0) len in
  let from := Z.min a b in
  let to := Z.max a b in
  take (Z.to_nat (to - from)) (drop (Z.to_nat from) s).

(** [arr.slice(start)]: a negative [start] counts from the end. *)
Definition slice {A : Type} (start : Z) (arr : list A) : list A :=
  let len := Z.of_nat (length arr) in
  let k := if start <? 0 then Z.max (len + start) 0 else Z.min start len in
  drop (Z.to_nat k) arr.

(** A JavaScript number, as far as comparisons see it: [NaN], an
    infinity, or a finite value (every finite double is a rational). *)
Inductive number : Type :=
| NaN
| Infinity (negative : bool)
| Finite (q : Q).

Definition of_Z (z : Z) : number := Finite (inject_Z z).

(** [a < b]: false as soon as one side is [NaN]. *)
Definition lt (a b : number) : bool :=
  match a, b with
  | NaN, _ | _, NaN => false
  | Infinity true, Infinity true => false
  | Infinity true, _ => true
  | _, Infinity true => false
  | Infinity false, _ => false
  | Finite _, Infinity false => true
  | Finite x, Finite y => negb (Qle_bool y x)
  end.

(** [a > b] *)
Definition gt (a b : number) : bool := lt b a.

(** The double nearest to the natural number [n], ties to the even
    significand: exact up to 53 bits, [Infinity] from 2^1024 on. *)
Definition round_to_double (n : Z) : number :=
  let bits := Z.log2 n + 1 in
  if bits <=? 53 then of_Z n
  else
    let s := bits - 53 in
    let q := Z.shiftr n s in
    let r := Z.land n (Z.ones s) in
    let half := Z.shiftl 1 (s - 1) in
    let q := if (half <? r) || ((r =? half) && Z.odd q) then q + 1 else q in
    let v := Z.shiftl q s in
    if 2 ^ 1024 <=? v then Infinity false else of_Z v.

(** Unary minus. *)
Definition negate (a : number) : number :=
  match a with
  | NaN => NaN
  | Infinity negative => Infinity (negb negative)
  | Finite q => Finite (- q)
  end.

(** [parseInt(text)] without a radix: leading white space, an optional
    sign, then the longest run of digits, hexadecimal after [0x] or [0X]
    and decimal otherwise; [NaN] when there is no digit. The value of the
    digits is rounded to a double. *)
Definition digit_value (radix : Z) (c : N) : option Z :=
  let c := Z.of_N c in
  let v :=
    if (48 <=? c) && (c <=? 57) then Some (c - 48)
    else if (97 <=? c) && (c <=? 122) then Some (c - 87)
    else if (65 <=? c) && (c <=? 90) then Some (c - 55)
    else None in
  match v with
  | Some d => if d <? radix then Some d else None
  | None => None
  end.

Fixpoint parse_digits (radix : Z) (s : JsString) (acc : option Z) : option Z :=
  match s with
  | c :: s' =>
      match digit_value radix c with
      | Some d => parse_digits radix s' (Some (radix * default 0 acc + d))
      | None => acc
      end
  | [] => acc
  end.

Definition parseInt (text : JsString) : number :=
  let s := trimStart text in
  let '(negative, s) :=
    match s with
    | 45%N :: s' => (true, s')
    | 43%N :: s' => (false, s')
    | _ => (false, s)
    end in
  let '(radix, s) :=
    match s with
    | 48%N :: 120%N :: s' | 48%N :: 88%N :: s' => (16, s')
    | _ => (10, s)
    end in
  match parse_digits radix s None with
  | Some z =>
      let value := round_to_double z in
      if negative then negate value else value
  | None => NaN
  end.

(** [s.startsWith(pattern)] *)
Fixpoint startsWith (pattern s : JsString) : bool :=
  match pattern, s with
  | [], _ => true
  | p :: pattern', c :: s' => (p =? c)%N && startsWith pattern' s'
  | _ :: _, [] => false
  end.

(** [s.includes(pattern)] *)
Fixpoint includes (s pattern : JsString) : bool :=
  startsWith pattern s
  || match s with
     | [] => false
     | _ :: s' => includes s' pattern
     end.

(** [s.split(separator)] for a separator that is not empty: [piece] is the
    piece being read, last unit first, and [skip] counts the units of a
    separator just found that are still to be passed over. *)
Fixpoint split_from (separator s : JsString) (skip : nat) (piece : JsString)
    : list JsString :=
  match s with
  | [] => [rev piece]
  | c :: s' =>
      match skip with
      | S k => split_from separator s' k piece
      | O =>
          if startsWith separator s
          then rev piece :: split_from separator s' (length separator - 1) []
          else split_from separator s' 0 (c :: piece)
      end
  end.

(** [s.split(separator)]; the empty separator cuts between all units. *)
Definition split (separator s : JsString) : list JsString :=
  match separator with
  | [] => List.map (fun c => [c]) s
  | _ :: _ => split_from separator s 0 []
  end.

(** What a [throw] or a rejected promise carries, as far as the handlers
    tell values apart: [err instanceof Error] with its [message], a
    string, another object with or without a [message] property, or
    anything else. *)
Inductive Thrown : Type :=
| ErrorObject (message : JsString)
| StringValue (s : JsString)
| ObjectValue (message : option JsString)
| OtherValue.

(** How an evaluation ends: with a value, or with something thrown. *)
Inductive Completion (A : Type) : Type :=
| Normal (a : A)
| Abrupt (e : Thrown).
Arguments Normal {A} a.
Arguments Abrupt {A} e.

(** ** Handlers as state transformers that may throw

    A handler runs in a world [W] (the component's state and what it has
    done to its surroundings), changes it, and completes normally or
    abruptly; the changes made before a [throw] stay. *)

Definition M (W A : Type) : Type := W -> W * Completion A.

Definition ret {W A : Type} (a : A) : M W A := fun w => (w, Normal a).

Definition throw {W A : Type} (e : Thrown) : M W A := fun w => (w, Abrupt e).

Definition bind {W A B : Type} (c : M W A) (k : A -> M W B) : M W B :=
  fun w =>
    match c w with
    | (w', Normal a) => k a w'
    | (w', Abrupt e) => (w', Abrupt e)
    end.

(** [try { body } catch (e) { handler }] *)
Definition try_catch {W A : Type} (body : M W A) (handler : Thrown -> M W A)
    : M W A :=
  fun w =>
    match body w with
    | (w', Normal a) => (w', Normal a)
    | (w', Abrupt e) => handler e w'
    end.

(** [try { body } finally { final }] *)
Definition try_finally {W A : Type} (body : M W A) (final : M W unit) : M W A :=
  fun w =>
    match body w with
    | (w', r) =>
        match final w' with
        | (w'', Normal _) => (w'', r)
        | (w'', Abrupt e) => (w'', Abrupt e)
        end
    end.

Definition get {W : Type} : M W W := fun w => (w, Normal w).

Definition modify {W : Type} (f : W -> W) : M W unit := fun w => (f w, Normal tt).

(** [await promise]: the settlement of the promise becomes the completion
    of the expression. *)
Definition settle {W A : Type} (promise : Completion A) : M W A :=
  fun w => (w, promise).

Declare Scope js_scope.
Delimit Scope js_scope with js.
Notation "'let*' x ':=' c 'in' k" := (bind c (fun x => k))
  (at level 10, x name, c at level 100, k at level 200) : js_scope.
Notation "c ;; k" := (bind c (fun _ => k))
  (at level 100, k at level 200, right associativity) : js_scope.

End Js.

(* ===================================================================== *)
(** * YouTubeVideoCard.tsx *)
(* ===================================================================== *)

Module Card.
Import Js.

(** [const truncateTitle = (title: string, maxLength = 50) => ...];
    [None] is the omitted argument. *)
Definition truncateTitle (title : JsString) (maxLength : option Z) : JsString :=
  let maxLength := default 50 maxLength in
  if Z.of_nat (length title) >? maxLength
  then substring title 0 maxLength ++ lit "..."
  else title.

(** The part of [YouTubeVideo] the card reads. *)
Record YouTubeVideo : Type := {
  videoId : JsString;
  title : JsString;
  thumbnailUrl : JsString;
  channelTitle : JsString;
  publishedAt : JsString
}.

(** The two [useState] cells of the card, and the windows it has opened
    ([window.open(url, '_blank')]), oldest first. *)
Record State : Type := {
  isPlaying : bool;
  imageError : bool;
  opened : list (list N)
}.

Definition initialState : State :=
  {| isPlaying := false; imageError := false; opened := [] |}.

(** What fills the thumbnail area: the embedded player, the thumbnail
    image, or the grey placeholder. *)
Inductive Media : Type :=
| Player (src : JsString)
| Thumbnail (src : JsString)
| Placeholder.

Definition media (video : YouTubeVideo) (s : State) : Media :=
  if isPlaying s then
    Player (lit "https://www.youtube.com/embed/" ++ videoId video
            ++ lit "?autoplay=1&rel=0")
  else if negb (imageError s) then Thumbnail (thumbnailUrl video)
  else Placeholder.

(** The events of the card: both play buttons, the button that closes the
    player, the failure of the thumbnail image, and the new-window button. *)
Inductive Event : Type :=
| EmbedPlay
| ClosePlayer
| ImageError
| OpenInNewTab.

Definition handle (video : YouTubeVideo) (e : Event) (s : State) : State :=
  match e with
  | EmbedPlay =>
      {| isPlaying := true; imageError := imageError s; opened := opened s |}
  | ClosePlayer =>
      {| isPlaying := false; imageError := imageError s; opened := opened s |}
  | ImageError =>
      {| isPlaying := isPlaying s; imageError := true; opened := opened s |}
  | OpenInNewTab =>
      {| isPlaying := isPlaying s; imageError := imageError s;
         opened := opened s
                   ++ [lit "https://www.youtube.com/watch?v=" ++ videoId video] |}
  end.

End Card.


(* ===================================================================== *)
(** * AIRecommendModal.tsx *)
(* ===================================================================== *)

Module Chat.
Import Js.

(** ** Data *)

Inductive Role : Type := user | assistant.

Record MovieRecommendation : Type := {
  title : JsString;
  year : option JsString;
  genre : option JsString;
  description : option JsString;
  poster : option JsString
}.

(** [interface ExtendedAIMessage extends AIMessage]; a field that may be
    missing from an object is an [option]. *)
Record ExtendedAIMessage : Type := {
  role : Role;
  content : JsString;
  timestamp : option JsString;
  recommendations : option (list MovieRecommendation)
}.

(** The object kept under the storage key: [{ messages, timestamp }]. *)
Module Cache.
Record t : Type := {
  messages : list ExtendedAIMessage;
  timestamp : Z
}.
End Cache.

(** What [sendAIRecommendMessage] resolves to, read as
    [response.choices[0].message.content] and [response.recommendations]. *)
Module Response.
Record ChoiceMessage : Type := { content : JsString }.
Record Choice : Type := { message : ChoiceMessage }.
Record t : Type := {
  choices : list Choice;
  recommendations : option (list MovieRecommendation)
}.
End Response.

(** The object a JSON error message decodes to: [errorResponse.error]
    and [errorResponse.details]. *)
Module ErrorResponse.
Record t : Type := {
  error : option JsString;
  details : option JsString
}.
End ErrorResponse.

(** [useState<{message: string, details?: string} | null>] *)
Module ErrorBanner.
Record t : Type := {
  message : JsString;
  details : option JsString
}.
End ErrorBanner.

(** An entry of [AI_RECOMMEND_PRESETS]. *)
Module Preset.
Record t : Type := {
  title : JsString;
  message : JsString
}.
End Preset.

(** The four [useState] cells of the component. *)
Record State : Type := {
  messages : list ExtendedAIMessage;
  inputMessage : JsString;
  isLoading : bool;
  error : option ErrorBanner.t
}.

Definition initialState : State :=
  {| messages := []; inputMessage := []; isLoading := false; error := None |}.

(** ** Browser storage *)

Inductive StorageCall : Type :=
| GetItem (key : JsString)
| SetItem (key value : JsString)
| RemoveItem (key : JsString).

(** [window.localStorage]: its entries, whether the browser denies access
    (every call throws), whether the quota is exhausted ([setItem]
    throws), and the calls made so far, oldest first. *)
Record LocalStorage : Type := {
  items : gmap (list N) (list N);
  denied : bool;
  full : bool;
  calls : list StorageCall
}.

(** ** The world a handler runs in *)

(** [state] is what the closures of the current render read; [pending]
    is [state] with the queued [setState] updates applied; [messagesSet]
    tells whether [setMessages] was called since the last render, which is
    when the dependency [[messages]] of the save effect has changed.
    [outbox] lists the arguments of the calls of [sendAIRecommendMessage],
    oldest first, [console] the first argument of each [console.error]. *)
Record World : Type := {
  state : State;
  pending : State;
  messagesSet : bool;
  localStorage : LocalStorage;
  console : list (list N);
  outbox : list (list ExtendedAIMessage)
}.

(** Functions imported or built in, taken as given: the ISO rendering of
    an instant, JSON encoding and decoding at the two types the component
    uses ([None]: [JSON.parse] or the reading of the fields throws), the
    remote call of [@/lib/ai-recommend.client] with the way its promise
    settles, and the engine's message for reading a property of
    [undefined]. *)
Class Runtime : Type := {
  toISOString : Z -> JsString;
  JSON_stringify : Cache.t -> JsString;
  JSON_parse : JsString -> option Cache.t;
  JSON_parse_error : JsString -> option ErrorResponse.t;
  sendAIRecommendMessage : list ExtendedAIMessage -> Completion Response.t;
  undefined_property_message : JsString
}.

Local Open Scope js_scope.

(** ** [setState] *)

Definition with_pending (f : State -> State) (w : World) : World :=
  {| state := state w; pending := f (pending w);
     messagesSet := messagesSet w; localStorage := localStorage w;
     console := console w; outbox := outbox w |}.

Definition setMessages
    (update : list ExtendedAIMessage -> list ExtendedAIMessage) : M World unit :=
  modify (fun w =>
    let w' := with_pending (fun s =>
      {| messages := update (messages s); inputMessage := inputMessage s;
         isLoading := isLoading s; error := error s |}) w in
    {| state := state w'; pending := pending w'; messagesSet := true;
       localStorage := localStorage w'; console := console w';
       outbox := outbox w' |}).

Definition setInputMessage (v : JsString) : M World unit :=
  modify (with_pending (fun s =>
    {| messages := messages s; inputMessage := v;
       isLoading := isLoading s; error := error s |})).

Definition setIsLoading (v : bool) : M World unit :=
  modify (with_pending (fun s =>
    {| messages := messages s; inputMessage := inputMessage s;
       isLoading := v; error := error s |})).

Definition setError (v : option ErrorBanner.t) : M World unit :=
  modify (with_pending (fun s =>
    {| messages := messages s; inputMessage := inputMessage s;
       isLoading := isLoading s; error := v |})).

(** ** [console.error] and [localStorage] *)

Definition console_error (text : JsString) : M World unit :=
  modify (fun w =>
    {| state := state w; pending := pending w; messagesSet := messagesSet w;
       localStorage := localStorage w; console := console w ++ [text];
       outbox := outbox w |}).

Definition with_storage (f : LocalStorage -> LocalStorage) (w : World) : World :=
  {| state := state w; pending := pending w; messagesSet := messagesSet w;
     localStorage := f (localStorage w); console := console w;
     outbox := outbox w |}.

Definition record_call (c : StorageCall) (ls : LocalStorage) : LocalStorage :=
  {| items := items ls; denied := denied ls; full := full ls;
     calls := calls ls ++ [c] |}.

Definition with_items (f : gmap (list N) (list N) -> gmap (list N) (list N))
    (ls : LocalStorage) : LocalStorage :=
  {| items := f (items ls); denied := denied ls; full := full ls;
     calls := calls ls |}.

Definition SecurityError : Thrown := ErrorObject (lit "SecurityError").
Definition QuotaExceededError : Thrown := ErrorObject (lit "QuotaExceededError").

(** [localStorage.getItem(key)]; [None] is [null]. *)
Definition getItem (key : JsString) : M World (option JsString) :=
  fun w =>
    let w := with_storage (record_call (GetItem key)) w in
    if denied (localStorage w) then (w, Abrupt SecurityError)
    else (w, Normal (items (localStorage w) !! key)).

(** [localStorage.setItem(key, value)] *)
Definition setItem (key value : JsString) : M World unit :=
  fun w =>
    let w := with_storage (record_call (SetItem key value)) w in
    if denied (localStorage w) then (w, Abrupt SecurityError)
    else if full (localStorage w) then (w, Abrupt QuotaExceededError)
    else (with_storage (with_items (insert key value)) w, Normal tt).

(** [localStorage.removeItem(key)] *)
Definition removeItem (key : JsString) : M World unit :=
  fun w =>
    let w := with_storage (record_call (RemoveItem key)) w in
    if denied (localStorage w) then (w, Abrupt SecurityError)
    else (with_storage (with_items (delete key)) w, Normal tt).

(** The only key the component uses: ['ai-recommend-messages']. *)
Definition STORAGE_KEY : JsString := lit "ai-recommend-messages".

(** ** The component *)

Section Component.
Context `{rt : Runtime}.

(** The greeting of the assistant, as UTF-16 code units:
    你好！我是AI影视推荐助手，可以根据你的喜好为你推荐精彩的影视作品。
    请告诉我你想看什么类型的影片，或者描述一下你的心情和偏好吧！ *)
Definition WELCOME_CONTENT : JsString :=
  [20320; 22909; 65281; 25105; 26159; 65; 73; 24433; 35270; 25512; 33616;
   21161; 25163; 65292; 21487; 20197; 26681; 25454; 20320; 30340; 21916;
   22909; 20026; 20320; 25512; 33616; 31934; 24425; 30340; 24433; 35270;
   20316; 21697; 12290; 35831; 21578; 35785; 25105; 20320; 24819; 30475;
   20160; 20040; 31867; 22411; 30340; 24433; 29255; 65292; 25110; 32773;
   25551; 36848; 19968; 19979; 20320; 30340; 24515; 24773; 21644; 20559;
   22909; 21543; 65281]%N.

(** AI推荐请求失败: *)
Definition REQUEST_FAILED_LOG : JsString :=
  [65; 73; 25512; 33616; 35831; 27714; 22833; 36133; 58]%N.

(** 如果问题持续，请联系管理员检查AI配置 *)
Definition DETAILS_CONTACT_ADMIN : JsString :=
  [22914; 26524; 38382; 39064; 25345; 32493; 65292; 35831; 32852; 31995;
   31649; 29702; 21592; 26816; 26597; 65; 73; 37197; 32622]%N.

(** 请求失败，请稍后重试 *)
Definition MESSAGE_RETRY_LATER : JsString :=
  [35831; 27714; 22833; 36133; 65292; 35831; 31245; 21518; 37325; 35797]%N.

(** 未知错误，请检查网络连接 *)
Definition DETAILS_UNKNOWN : JsString :=
  [26410; 30693; 38169; 35823; 65292; 35831; 26816; 26597; 32593; 32476;
   36830; 25509]%N.

Definition welcomeMessage (t : Z) : ExtendedAIMessage :=
  {| role := assistant; content := WELCOME_CONTENT;
     timestamp := Some (toISOString t); recommendations := None |}.

(** *** Rendering and the two effects *)

(** A render makes the queued updates the current state. *)
Definition commit (w : World) : World :=
  {| state := pending w; pending := pending w; messagesSet := false;
     localStorage := localStorage w; console := console w;
     outbox := outbox w |}.

(** [useEffect(() => { scrollToBottom(); try { localStorage.setItem(...) }
    catch ... }, [messages])], run at time [t]; scrolling touches the
    document only and is left out. *)
Definition saveEffect (t : Z) : M World unit :=
  try_catch
    (let* w := get in
     let cache := {| Cache.messages := messages (state w);
                     Cache.timestamp := t |} in
     setItem STORAGE_KEY (JSON_stringify cache))
    (fun _ => console_error (lit "Failed to save messages to cache")).

(** React renders the queued updates and then runs the effects whose
    dependencies changed: the save effect when [setMessages] was called
    (each call in this component passes a new array). *)
Definition render (t : Z) : M World unit :=
  let* w := get in
  modify commit ;;
  if messagesSet w then saveEffect t else ret tt.

(** [{ ...msg, timestamp: msg.timestamp || new Date().toISOString() }] *)
Definition restoreTimestamp (t : Z) (msg : ExtendedAIMessage) : ExtendedAIMessage :=
  {| role := role msg; content := content msg;
     timestamp := Some (or_else (timestamp msg) (toISOString t));
     recommendations := recommendations msg |}.

Definition SyntaxError : Thrown := ErrorObject (lit "SyntaxError").

(** [useEffect(() => { try { ... } catch ... }, [])], run at time [t].
    [restored] is true on the path that leaves through [return]. *)
Definition loadEffect (t : Z) : M World unit :=
  try_catch
    (let* cachedMessages := getItem STORAGE_KEY in
     let* restored :=
       match cachedMessages with
       | Some text =>
           if truthy text then
             match JSON_parse text with
             | None => throw SyntaxError
             | Some cache =>
                 if t - Cache.timestamp cache <? 30 * 60 * 1000 then
                   setMessages (fun _ =>
                     List.map (restoreTimestamp t) (Cache.messages cache)) ;;
                   ret true
                 else ret false
             end
           else ret false
       | None => ret false
       end in
     if (restored : bool) then ret tt
     else setMessages (fun _ => [welcomeMessage t]))
    (fun _ => console_error (lit "Failed to load messages from cache")).

(** Mounting: after the first render (of [initialState]) both effects run
    in the order they are declared, then the queued updates are rendered. *)
Definition mount (t : Z) : M World unit :=
  loadEffect t ;; saveEffect t ;; render t.

Definition initialWorld (ls : LocalStorage) : World :=
  {| state := initialState; pending := initialState; messagesSet := false;
     localStorage := ls; console := []; outbox := [] |}.

(** *** Sending a message *)

(** The call [sendAIRecommendMessage(conversationHistory)]: the request
    leaves, and the promise it returns stands for its later settlement. *)
Definition call_sendAIRecommendMessage (history : list ExtendedAIMessage)
    : M World (Completion Response.t) :=
  fun w =>
    ({| state := state w; pending := pending w; messagesSet := messagesSet w;
        localStorage := localStorage w; console := console w;
        outbox := outbox w ++ [history] |},
     Normal (sendAIRecommendMessage history)).

(** [await promise]: the handler is suspended, React renders (at time [t])
    what was queued so far, and the handler resumes with the settlement. *)
Definition await {A : Type} (t : Z) (promise : Completion A) : M World A :=
  render t ;; settle promise.

(** [const userMessage: AIMessage = { role: 'user', content:
    content.trim(), timestamp: new Date().toISOString() }] *)
Definition userMessageOf (content : JsString) (now : Z) : ExtendedAIMessage :=
  {| role := user; content := trim content;
     timestamp := Some (toISOString now); recommendations := None |}.

(** [const assistantMessage: ExtendedAIMessage = { role: 'assistant',
    content: response.choices[0].message.content, timestamp: ...,
    recommendations: response.recommendations || [] }], [first] being
    [response.choices[0]]. *)
Definition assistantMessageOf (response : Response.t) (first : Response.Choice)
    (later : Z) : ExtendedAIMessage :=
  {| role := assistant;
     content := Response.content (Response.message first);
     timestamp := Some (toISOString later);
     recommendations :=
       Some (default [] (Response.recommendations response)) |}.

(** [const sendMessage = async (content: string) => { ... }], called at
    time [now], the reply (or the failure) arriving at time [later].
    [w] is the world of the render the handler was created in: [messages]
    and [isLoading] of the source are [messages (state w)] and
    [isLoading (state w)], while [prev] of the functional update is the
    transcript with the queued updates. Other events between the call and
    its settlement are not part of this run. *)
Definition sendMessage (content : JsString) (now later : Z) : M World unit :=
  let* w := get in
  if negb (truthy (trim content)) || isLoading (state w) then ret tt
  else
    let userMessage := userMessageOf content now in
    setMessages (fun prev => prev ++ [userMessage]) ;;
    setInputMessage [] ;;
    setIsLoading true ;;
    setError None ;;
    try_finally
      (try_catch
         (let updatedMessages := messages (state w) ++ [userMessage] in
          let conversationHistory := slice (-8) updatedMessages in
          let* promise := call_sendAIRecommendMessage conversationHistory in
          let* response := await now promise in
          let* first :=
            match Response.choices response with
            | c :: _ => ret c
            | [] => throw (ErrorObject undefined_property_message)
            end in
          let assistantMessage := assistantMessageOf response first later in
          setMessages (fun _ => updatedMessages ++ [assistantMessage]))
         (fun e =>
            console_error REQUEST_FAILED_LOG ;;
            match e with
            | ErrorObject message =>
                match JSON_parse_error message with
                | Some errorResponse =>
                    setError (Some
                      {| ErrorBanner.message :=
                           or_else (ErrorResponse.error errorResponse) message;
                         ErrorBanner.details :=
                           ErrorResponse.details errorResponse |})
                | None =>
                    setError (Some
                      {| ErrorBanner.message := message;
                         ErrorBanner.details := Some DETAILS_CONTACT_ADMIN |})
                end
            | _ =>
                setError (Some
                  {| ErrorBanner.message := MESSAGE_RETRY_LATER;
                     ErrorBanner.details := Some DETAILS_UNKNOWN |})
            end))
      (setIsLoading false).

(** [handleSubmit]: [sendMessage(inputMessage)] *)
Definition handleSubmit (now later : Z) : M World unit :=
  let* w := get in
  sendMessage (inputMessage (state w)) now later.

(** *** Resetting *)

Definition resetChat (t : Z) : M World unit :=
  try_catch
    (removeItem STORAGE_KEY)
    (fun _ => console_error (lit "Failed to clear messages cache")) ;;
  setMessages (fun _ => [welcomeMessage t]) ;;
  setError None ;;
  setInputMessage [].

(** [handlePresetClick]: [sendMessage(preset.message)] *)
Definition handlePresetClick (preset : Preset.t) (now later : Z) : M World unit :=
  sendMessage (Preset.message preset) now later.

(** [handleKeyDown]: Enter without Shift sends the input. *)
Definition handleKeyDown (key : JsString) (shiftKey : bool) (now later : Z)
    : M World unit :=
  let* w := get in
  if bool_decide (key = lit "Enter") && negb shiftKey
  then sendMessage (inputMessage (state w)) now later
  else ret tt.

(** An event: the handler runs, then React renders at time [t]. *)
Definition dispatch (t : Z) (handler : M World unit) (w : World) : World :=
  let (w', _) := handler w in
  fst (render t w').

(** The events of the modal that reach its state: the form, the keyboard,
    a preset, the reset button, typing, and closing the error banner. An
    event that sends carries the time it happens and the time the remote
    call settles. *)
Inductive Event : Type :=
| Submit (now later : Z)
| KeyDown (key : JsString) (shiftKey : bool) (now later : Z)
| PresetClick (preset : Preset.t) (now later : Z)
| ResetClick (t : Z)
| InputChange (value : JsString) (t : Z)
| CloseError (t : Z).

Definition handler (e : Event) : M World unit :=
  match e with
  | Submit now later => handleSubmit now later
  | KeyDown key shiftKey now later => handleKeyDown key shiftKey now later
  | PresetClick preset now later => handlePresetClick preset now later
  | ResetClick t => resetChat t
  | InputChange value _ => setInputMessage value
  | CloseError _ => setError None
  end.

(** The time of the render that ends the event. *)
Definition time_of (e : Event) : Z :=
  match e with
  | Submit _ later | KeyDown _ _ _ later | PresetClick _ _ later => later
  | ResetClick t | InputChange _ t | CloseError t => t
  end.

Definition step (e : Event) (w : World) : World :=
  dispatch (time_of e) (handler e) w.

(** *** What the modal shows *)

(** AI影视推荐助手 *)
Definition ASSISTANT_NAME : JsString :=
  [65; 73; 24433; 35270; 25512; 33616; 21161; 25163]%N.

(** The presets panel: [messages.length <= 1 && messages.every(msg =>
    msg.role === 'assistant' && msg.content.includes('AI影视推荐助手'))]. *)
Definition showPresets (s : State) : bool :=
  (length (messages s) <=? 1)%nat
  && forallb (fun msg =>
                match role msg with assistant => true | user => false end
                && includes (content msg) ASSISTANT_NAME)
             (messages s).

(** The reset button: [messages.length > 0]. *)
Definition showResetButton (s : State) : bool :=
  (0 <? length (messages s))%nat.

(** The send button: [disabled={!inputMessage.trim() || isLoading}]. *)
Definition submitDisabled (s : State) : bool :=
  negb (truthy (trim (inputMessage s))) || isLoading s.

(** *** A whole session *)

(** The modal is mounted at [t0] over the storage [ls], then the events
    happen one after the other. *)
Definition session (t0 : Z) (ls : LocalStorage) (events : list Event) : World :=
  fold_left (fun w e => step e w) events (fst (mount t0 (initialWorld ls))).

End Component.

End Chat.

(* ===================================================================== *)
(** * AIRecommendConfig.tsx *)
(* ===================================================================== *)

Module Config.
Import Js.
Local Open Scope js_scope.

(** ** Data *)

(** The object of [useState({ enabled, apiUrl, ... })]. *)
Record AISettings : Type := {
  enabled : bool;
  apiUrl : JsString;
  apiKey : JsString;
  model : JsString;
  temperature : number;
  maxTokens : number
}.

(** The initial settings; [0.7] is the double nearest to 7/10. *)
Definition initialSettings : AISettings :=
  {| enabled := false;
     apiUrl := lit "https://api.openai.com/v1";
     apiKey := [];
     model := lit "gpt-3.5-turbo";
     temperature := Finite (3152519739159347 # 4503599627370496);
     maxTokens := of_Z 1000 |}.

Inductive MessageType : Type := success | error.

(** [useState<{ type: 'success' | 'error'; text: string } | null>] *)
Record Message : Type := {
  type : MessageType;
  text : JsString
}.

(** The object handed to [JSON.stringify] for the body of a request. *)
Inductive Body : Type :=
| SettingsBody (settings : AISettings)
| TestBody (apiUrl apiKey model : JsString).

Record Request : Type := {
  url : JsString;
  method : JsString;
  body : Body
}.

(** [errorData.error] of a decoded error body. *)
Record ErrorData : Type := { error_field : option JsString }.

(** What [fetch] resolves to; [json] is how [response.json()] settles. *)
Module Response.
Record t : Type := {
  ok : bool;
  status : Z;
  statusText : JsString;
  json : Completion ErrorData
}.
End Response.

(** Component state, the requests sent so far (oldest first), the first
    argument of each [console.error], and how often [refreshConfig] was
    called. *)
Record World : Type := {
  aiSettings : AISettings;
  isLoading : bool;
  message : option Message;
  requests : list Request;
  console : list (list N);
  refreshes : nat
}.

(** Taken as given: how [fetch] settles for a request, how the
    [refreshConfig] property settles, and the decimal rendering of a status
    code in a template string. *)
Class Runtime : Type := {
  fetch : Request -> Completion Response.t;
  refreshConfig : Completion unit;
  String_of_status : Z -> JsString
}.

(** ** Texts *)

(** 请填写API地址 *)
Definition MSG_FILL_URL : JsString :=
  [35831; 22635; 20889; 65; 80; 73; 22320; 22336]%N.
(** 请填写API密钥 *)
Definition MSG_FILL_KEY : JsString :=
  [35831; 22635; 20889; 65; 80; 73; 23494; 38053]%N.
(** 请选择或填写模型名称 *)
Definition MSG_FILL_MODEL : JsString :=
  [35831; 36873; 25321; 25110; 22635; 20889; 27169; 22411; 21517; 31216]%N.
(** 温度参数应在0-2之间 *)
Definition MSG_TEMPERATURE_RANGE : JsString :=
  [28201; 24230; 21442; 25968; 24212; 22312; 48; 45; 50; 20043; 38388]%N.
(** 最大Token数应在1-4000之间 *)
Definition MSG_MAX_TOKENS_RANGE : JsString :=
  [26368; 22823; 84; 111; 107; 101; 110; 25968; 24212; 22312; 49; 45; 52;
   48; 48; 48; 20043; 38388]%N.
(** 保存失败 *)
Definition MSG_SAVE_FAILED : JsString := [20445; 23384; 22833; 36133]%N.
(** AI推荐配置保存成功 *)
Definition MSG_SAVE_OK : JsString :=
  [65; 73; 25512; 33616; 37197; 32622; 20445; 23384; 25104; 21151]%N.
(** 请先填写API地址和密钥 *)
Definition MSG_TEST_FILL_FIRST : JsString :=
  [35831; 20808; 22635; 20889; 65; 80; 73; 22320; 22336; 21644; 23494;
   38053]%N.
(** API连接测试失败 *)
Definition MSG_TEST_FAILED : JsString :=
  [65; 80; 73; 36830; 25509; 27979; 35797; 22833; 36133]%N.
(** API连接测试成功！ *)
Definition MSG_TEST_OK : JsString :=
  [65; 80; 73; 36830; 25509; 27979; 35797; 25104; 21151; 65281]%N.
(** API连接失败，请检查网络或API配置 *)
Definition MSG_TEST_CHECK_NETWORK : JsString :=
  [65; 80; 73; 36830; 25509; 22833; 36133; 65292; 35831; 26816; 26597;
   32593; 32476; 25110; 65; 80; 73; 37197; 32622]%N.
(** 测试连接错误: *)
Definition TEST_ERROR_LOG : JsString :=
  [27979; 35797; 36830; 25509; 38169; 35823; 58]%N.

(** ** State updates

    No effect of the component reads what the handlers set, so an update
    is applied where it is made. *)

Definition setAiSettings (update : AISettings -> AISettings) : M World unit :=
  modify (fun w =>
    {| aiSettings := update (aiSettings w); isLoading := isLoading w;
       message := message w; requests := requests w; console := console w;
       refreshes := refreshes w |}).

Definition setIsLoading (v : bool) : M World unit :=
  modify (fun w =>
    {| aiSettings := aiSettings w; isLoading := v; message := message w;
       requests := requests w; console := console w;
       refreshes := refreshes w |}).

(** [showMessage], as far as the handlers are concerned: [message] is the
    message last shown, which is what the form displays until a timer
    fires, so right after a [showMessage] that no [await] follows. The
    timer that clears the message three seconds later is in
    [showMessage_at] below. *)
Definition showMessage (type : MessageType) (text : JsString) : M World unit :=
  modify (fun w =>
    {| aiSettings := aiSettings w; isLoading := isLoading w;
       message := Some {| type := type; text := text |};
       requests := requests w; console := console w;
       refreshes := refreshes w |}).

Definition console_error (text : JsString) : M World unit :=
  modify (fun w =>
    {| aiSettings := aiSettings w; isLoading := isLoading w;
       message := message w; requests := requests w;
       console := console w ++ [text]; refreshes := refreshes w |}).

(** The [onChange] of the max-tokens field:
    [maxTokens: parseInt(e.target.value)]. *)
Definition onMaxTokensChange (value : JsString) : M World unit :=
  setAiSettings (fun prev =>
    {| enabled := enabled prev; apiUrl := apiUrl prev; apiKey := apiKey prev;
       model := model prev; temperature := temperature prev;
       maxTokens := parseInt value |}).

Section Component.
Context `{rt : Runtime}.

(** [await fetch(url, { method: 'POST', ..., body })] *)
Definition call_fetch (request : Request) : M World Response.t :=
  modify (fun w =>
    {| aiSettings := aiSettings w; isLoading := isLoading w;
       message := message w; requests := requests w ++ [request];
       console := console w; refreshes := refreshes w |}) ;;
  settle (fetch request).

(** [await refreshConfig()] *)
Definition call_refreshConfig : M World unit :=
  modify (fun w =>
    {| aiSettings := aiSettings w; isLoading := isLoading w;
       message := message w; requests := requests w;
       console := console w; refreshes := S (refreshes w) |}) ;;
  settle refreshConfig.

(** [const handleSave = async () => { ... }]. [valid] is false on the
    paths that leave through [return] after [showMessage]. *)
Definition handleSave : M World unit :=
  let* w := get in
  let aiSettings := aiSettings w in
  let* valid :=
    if enabled aiSettings then
      if negb (truthy (trim (apiUrl aiSettings))) then
        showMessage error MSG_FILL_URL ;; ret false
      else if negb (truthy (trim (apiKey aiSettings))) then
        showMessage error MSG_FILL_KEY ;; ret false
      else if negb (truthy (trim (model aiSettings))) then
        showMessage error MSG_FILL_MODEL ;; ret false
      else if lt (temperature aiSettings) (of_Z 0)
              || gt (temperature aiSettings) (of_Z 2) then
        showMessage error MSG_TEMPERATURE_RANGE ;; ret false
      else if lt (maxTokens aiSettings) (of_Z 1)
              || gt (maxTokens aiSettings) (of_Z 4000) then
        showMessage error MSG_MAX_TOKENS_RANGE ;; ret false
      else ret true
    else ret true in
  if (valid : bool) then
    setIsLoading true ;;
    try_finally
      (try_catch
         (let* response :=
            call_fetch {| url := lit "/api/admin/ai-recommend";
                          method := lit "POST";
                          body := SettingsBody aiSettings |} in
          (if negb (Response.ok response) then
             let* errorData := settle (Response.json response) in
             throw (ErrorObject
                      (or_else (error_field errorData) MSG_SAVE_FAILED))
           else ret tt) ;;
          showMessage success MSG_SAVE_OK ;;
          call_refreshConfig)
         (fun err =>
            showMessage error
              match err with
              | ErrorObject message => message
              | _ => MSG_SAVE_FAILED
              end))
      (setIsLoading false)
  else ret tt.

(** [const handleTest = async () => { ... }] *)
Definition handleTest : M World unit :=
  let* w := get in
  let aiSettings := aiSettings w in
  if negb (truthy (trim (apiUrl aiSettings)))
     || negb (truthy (trim (apiKey aiSettings))) then
    showMessage error MSG_TEST_FILL_FIRST
  else
    setIsLoading true ;;
    try_finally
      (try_catch
         (let* response :=
            call_fetch {| url := lit "/api/admin/ai-recommend/test";
                          method := lit "POST";
                          body := TestBody (apiUrl aiSettings)
                                           (apiKey aiSettings)
                                           (model aiSettings) |} in
          (if negb (Response.ok response) then
             let* errorMessage :=
               try_catch
                 (let* errorData := settle (Response.json response) in
                  ret (or_else (error_field errorData) MSG_TEST_FAILED))
                 (fun _ =>
                    ret (lit "HTTP "
                         ++ String_of_status (Response.status response)
                         ++ lit ": " ++ Response.statusText response)) in
             throw (ErrorObject errorMessage)
           else ret tt) ;;
          showMessage success MSG_TEST_OK)
         (fun err =>
            console_error TEST_ERROR_LOG ;;
            let errorMessage :=
              match err with
              | ErrorObject message => message
              | StringValue s => s
              | ObjectValue (Some message) => message
              | ObjectValue None => MSG_TEST_CHECK_NETWORK
              | OtherValue => MSG_TEST_FAILED
              end in
            showMessage error errorMessage))
      (setIsLoading false).

End Component.

(** *** The other controls of the form *)

(** The part of [AdminConfig] the form reads; every field may be missing. *)
Module AdminConfig.
Record AIRecommend : Type := {
  enabled : option bool;
  apiUrl : option JsString;
  apiKey : option JsString;
  model : option JsString;
  temperature : option number;
  maxTokens : option number
}.
Record t : Type := { AIRecommendConfig : option AIRecommend }.
End AdminConfig.

(** [useEffect(() => { if (config?.AIRecommendConfig) setAiSettings({...}) },
    [config])]: [??] replaces a missing value, [||] also an empty text. *)
Definition loadConfig (config : option AdminConfig.t) : M World unit :=
  match config with
  | Some {| AdminConfig.AIRecommendConfig := Some c |} =>
      setAiSettings (fun _ =>
        {| enabled := default false (AdminConfig.enabled c);
           apiUrl := or_else (AdminConfig.apiUrl c)
                       (lit "https://api.openai.com/v1");
           apiKey := or_else (AdminConfig.apiKey c) [];
           model := or_else (AdminConfig.model c) (lit "gpt-3.5-turbo");
           temperature :=
             default (Finite (3152519739159347 # 4503599627370496))
                     (AdminConfig.temperature c);
           maxTokens := default (of_Z 1000) (AdminConfig.maxTokens c) |})
  | _ => ret tt
  end.

(** The [onChange] of the switch and of the three text fields. *)
Definition onEnabledChange (checked : bool) : M World unit :=
  setAiSettings (fun prev =>
    {| enabled := checked; apiUrl := apiUrl prev; apiKey := apiKey prev;
       model := model prev; temperature := temperature prev;
       maxTokens := maxTokens prev |}).

Definition onApiUrlChange (value : JsString) : M World unit :=
  setAiSettings (fun prev =>
    {| enabled := enabled prev; apiUrl := value; apiKey := apiKey prev;
       model := model prev; temperature := temperature prev;
       maxTokens := maxTokens prev |}).

Definition onApiKeyChange (value : JsString) : M World unit :=
  setAiSettings (fun prev =>
    {| enabled := enabled prev; apiUrl := apiUrl prev; apiKey := value;
       model := model prev; temperature := temperature prev;
       maxTokens := maxTokens prev |}).

Definition onModelChange (value : JsString) : M World unit :=
  setAiSettings (fun prev =>
    {| enabled := enabled prev; apiUrl := apiUrl prev; apiKey := apiKey prev;
       model := value; temperature := temperature prev;
       maxTokens := maxTokens prev |}).

(** [MODEL_EXAMPLES]; the two vendors written in Chinese are 阿里云 and
    智谱AI. *)
Definition MODEL_EXAMPLES : list JsString :=
  [ lit "gpt-5 (OpenAI)";
    lit "o3-mini (OpenAI)";
    lit "claude-4-opus (Anthropic)";
    lit "claude-4-sonnet (Anthropic)";
    lit "gemini-2.5-flash (Google)";
    lit "gemini-2.5-pro (Google)";
    lit "deepseek-r1 (DeepSeek)";
    lit "deepseek-v3 (DeepSeek)";
    lit "qwen3-max (" ++ [38463; 37324; 20113]%N ++ lit ")";
    lit "glm-4-plus (" ++ [26234; 35889]%N ++ lit "AI)";
    lit "llama-4 (Meta)";
    lit "grok-4 (xAI)" ].

(** [const modelName = example.split(' (')[0]]; the array of a split by a
    separator that is not empty has a first element. *)
Definition modelNameOf (example : JsString) : JsString :=
  hd [] (split (lit " (") example).

(** The [onClick] of an example button. *)
Definition onExampleClick (example : JsString) : M World unit :=
  let modelName := modelNameOf example in
  setAiSettings (fun prev =>
    {| enabled := enabled prev; apiUrl := apiUrl prev; apiKey := apiKey prev;
       model := modelName; temperature := temperature prev;
       maxTokens := maxTokens prev |}).

(** *** [showMessage] with its timer

    [setTimeout(() => setMessage(null), 3000)]: every call leaves a timer
    behind, and no timer is ever cancelled. [timers] holds the times at
    which the pending timers are due. *)
Record Timed : Type := {
  world : World;
  timers : list Z
}.

Definition setMessage_null (w : World) : World :=
  {| aiSettings := aiSettings w; isLoading := isLoading w; message := None;
     requests := requests w; console := console w;
     refreshes := refreshes w |}.

(** The timers due by [now] have run. *)
Definition elapse (now : Z) (tw : Timed) : Timed :=
  {| world :=
       if existsb (fun due => due <=? now) (timers tw)
       then setMessage_null (world tw) else world tw;
     timers := List.filter (fun due => negb (due <=? now)) (timers tw) |}.

(** [showMessage(type, text)] called at time [now]. *)
Definition showMessage_at (now : Z) (type : MessageType) (text : JsString)
    (tw : Timed) : Timed :=
  let tw := elapse now tw in
  {| world := fst (showMessage type text (world tw));
     timers := timers tw ++ [now + 3000] |}.

(** The world of a freshly mounted form holding [settings]. *)
Definition worldOf (settings : AISettings) : World :=
  {| aiSettings := settings; isLoading := false; message := None;
     requests := []; console := []; refreshes := 0 |}.

End Config.


(* ===================================================================== *)
(** * The words of the specification *)
(* ===================================================================== *)

Module Spec.
Import Js.

(** A string is blank when it is empty or made of white space only. *)
Definition blank (s : JsString) : bool := forallb isWhiteSpace s.

(** The last [n] elements of a list: all of it when it has no more. *)
Definition last_n {A : Type} (n : nat) (l : list A) : list A :=
  drop (length l - n) l.

(** A send fails when the promise of the remote call is rejected
    (transport) or when the reply has no first choice to read the content
    from (parse); [failure] is what the [catch] block then receives. *)
Definition failure `{rt : Chat.Runtime} (settlement : Completion Chat.Response.t)
    : option Thrown :=
  match settlement with
  | Abrupt e => Some e
  | Normal response =>
      match Chat.Response.choices response with
      | [] => Some (ErrorObject Chat.undefined_property_message)
      | _ :: _ => None
      end
  end.

(** Nothing is queued: the world as React leaves it after a render. *)
Definition rendered (w : Chat.World) : Prop :=
  Chat.pending w = Chat.state w /\ Chat.messagesSet w = false.

(** The browser allows the storage and has room for the write. *)
Definition healthy (w : Chat.World) : Prop :=
  Chat.denied (Chat.localStorage w) = false
  /\ Chat.full (Chat.localStorage w) = false.

(** The storage key holds the encoding of the whole transcript on display,
    with some time stamp. *)
Definition synced `{rt : Chat.Runtime} (w : Chat.World) : Prop :=
  exists t,
    Chat.items (Chat.localStorage w) !! Chat.STORAGE_KEY
    = Some (Chat.JSON_stringify
              {| Chat.Cache.messages := Chat.messages (Chat.state w);
                 Chat.Cache.timestamp := t |}).

(** The banner the [catch] block of [sendMessage] sets for what it
    caught. *)
Definition bannerOf `{rt : Chat.Runtime} (e : Thrown) : Chat.ErrorBanner.t :=
  match e with
  | ErrorObject message =>
      match Chat.JSON_parse_error message with
      | Some errorResponse =>
          {| Chat.ErrorBanner.message :=
               or_else (Chat.ErrorResponse.error errorResponse) message;
             Chat.ErrorBanner.details :=
               Chat.ErrorResponse.details errorResponse |}
      | None =>
          {| Chat.ErrorBanner.message := message;
             Chat.ErrorBanner.details := Some Chat.DETAILS_CONTACT_ADMIN |}
      end
  | _ =>
      {| Chat.ErrorBanner.message := Chat.MESSAGE_RETRY_LATER;
         Chat.ErrorBanner.details := Some Chat.DETAILS_UNKNOWN |}
  end.

(** Every message of the transcript carries a time stamp that is not
    empty. *)
Definition stamped (msgs : list Chat.ExtendedAIMessage) : Prop :=
  Forall (fun msg => truthy_opt (Chat.timestamp msg) = true) msgs.

(** A text has no white space at either end. *)
Definition trimmed (s : JsString) : Prop := trim s = s.

(** A well-formed request: between one and eight messages, the last of
    them a message of the user whose text is not blank and is trimmed. *)
Definition request_ok (history : list Chat.ExtendedAIMessage) : Prop :=
  (1 <= length history <= 8)%nat
  /\ exists msg, last history = Some msg
                 /\ Chat.role msg = Chat.user
                 /\ blank (Chat.content msg) = false
                 /\ trimmed (Chat.content msg).

(** An event that may send a message. *)
Definition sends (e : Chat.Event) : bool :=
  match e with
  | Chat.Submit _ _ | Chat.KeyDown _ _ _ _ | Chat.PresetClick _ _ _ => true
  | Chat.ResetClick _ | Chat.InputChange _ _ | Chat.CloseError _ => false
  end.

(** Two worlds agree outside the storage key of the modal: every other
    entry is the same, and so is what the browser allows. *)
Definition same_elsewhere (w w' : Chat.World) : Prop :=
  (forall key, key <> Chat.STORAGE_KEY ->
     Chat.items (Chat.localStorage w') !! key
     = Chat.items (Chat.localStorage w) !! key)
  /\ Chat.denied (Chat.localStorage w') = Chat.denied (Chat.localStorage w)
  /\ Chat.full (Chat.localStorage w') = Chat.full (Chat.localStorage w).

(** A number lies in the closed interval from [lo] to [hi]; [NaN] lies in
    none. *)
Definition within (lo hi : Z) (x : number) : bool :=
  match x with
  | Finite q => Qle_bool (inject_Z lo) q && Qle_bool q (inject_Z hi)
  | NaN | Infinity _ => false
  end.

(** The request a save submits: the whole settings record. *)
Definition saveRequest (s : Config.AISettings) : Config.Request :=
  {| Config.url := lit "/api/admin/ai-recommend";
     Config.method := lit "POST";
     Config.body := Config.SettingsBody s |}.

(** The request of the connectivity test: the three connection fields. *)
Definition testRequest (s : Config.AISettings) : Config.Request :=
  {| Config.url := lit "/api/admin/ai-recommend/test";
     Config.method := lit "POST";
     Config.body :=
       Config.TestBody (Config.apiUrl s) (Config.apiKey s) (Config.model s) |}.

(** The settings a save must refuse when the feature is enabled: a blank
    endpoint, key or model, a temperature outside 0..2, or a token limit
    outside 1..4000. *)
Definition must_reject (s : Config.AISettings) : bool :=
  blank (Config.apiUrl s) || blank (Config.apiKey s) || blank (Config.model s)
  || negb (within 0 2 (Config.temperature s))
  || negb (within 1 4000 (Config.maxTokens s)).

(** What an event hands to [sendMessage], and at what time: the input
    buffer for the form and for Enter without Shift, the text of a preset;
    nothing for the other events. *)
Definition text_sent (e : Chat.Event) (s : Chat.State) : option (JsString * Z) :=
  match e with
  | Chat.Submit now _ => Some (Chat.inputMessage s, now)
  | Chat.KeyDown key shiftKey now _ =>
      if bool_decide (key = lit "Enter") && negb shiftKey
      then Some (Chat.inputMessage s, now) else None
  | Chat.PresetClick preset now _ => Some (Chat.Preset.message preset, now)
  | _ => None
  end.

(** An operation of the modal that leaves the rest of the storage alone. *)
Definition quiet {A : Type} (c : M Chat.World A) : Prop :=
  forall w, same_elsewhere w (fst (c w)).

(** A configuration that carries every field of the settings [s]. *)
Definition configOf (s : Config.AISettings) : Config.AdminConfig.t :=
  {| Config.AdminConfig.AIRecommendConfig :=
       Some {| Config.AdminConfig.enabled := Some (Config.enabled s);
               Config.AdminConfig.apiUrl := Some (Config.apiUrl s);
               Config.AdminConfig.apiKey := Some (Config.apiKey s);
               Config.AdminConfig.model := Some (Config.model s);
               Config.AdminConfig.temperature := Some (Config.temperature s);
               Config.AdminConfig.maxTokens := Some (Config.maxTokens s) |} |}.

End Spec.

(* ===================================================================== *)
(** * Sample inputs *)
(* ===================================================================== *)

Module Samples.
Import Js.

(** A runtime for the chat modal: one fixed instant text, a store that
    knows a single cache text, a remote end that always recommends the
    same film. *)
Definition cachedTranscript : list Chat.ExtendedAIMessage :=
  [ {| Chat.role := Chat.user; Chat.content := lit "space operas";
       Chat.timestamp := Some (lit "2025-03-01T10:00:00.000Z");
       Chat.recommendations := None |};
    {| Chat.role := Chat.assistant; Chat.content := lit "Try Dune.";
       Chat.timestamp := Some (lit "2025-03-01T10:00:05.000Z");
       Chat.recommendations := Some [] |} ].

Definition cache : Chat.Cache.t :=
  {| Chat.Cache.messages := cachedTranscript;
     Chat.Cache.timestamp := 1740823205000 |}.

Definition cacheText : JsString := lit "{messages:[...],timestamp:1740823205000}".

Definition reply : Chat.Response.t :=
  {| Chat.Response.choices :=
       [ {| Chat.Response.message :=
              {| Chat.Response.content := lit "Try Inception." |} |} ];
     Chat.Response.recommendations := None |}.

Definition chatRuntime (outcome : Completion Chat.Response.t) : Chat.Runtime :=
  {| Chat.toISOString := fun _ => lit "2025-03-01T10:10:00.000Z";
     Chat.JSON_stringify := fun _ => cacheText;
     Chat.JSON_parse := fun text =>
       if decide (text = cacheText) then Some cache else None;
     Chat.JSON_parse_error := fun _ => None;
     Chat.sendAIRecommendMessage := fun _ => outcome;
     Chat.undefined_property_message :=
       lit "Cannot read properties of undefined (reading 'message')" |}.

(** The remote end answers. *)
Definition okRuntime : Chat.Runtime := chatRuntime (Normal reply).

(** The remote end cannot be reached. *)
Definition offlineRuntime : Chat.Runtime :=
  chatRuntime (Abrupt (ErrorObject (lit "Network Error"))).

Definition emptyStorage : Chat.LocalStorage :=
  {| Chat.items := ∅; Chat.denied := false; Chat.full := false;
     Chat.calls := [] |}.

Definition storageWith (text : JsString) : Chat.LocalStorage :=
  {| Chat.items := {[ Chat.STORAGE_KEY := text ]};
     Chat.denied := false; Chat.full := false; Chat.calls := [] |}.

Definition deniedStorage : Chat.LocalStorage :=
  {| Chat.items := ∅; Chat.denied := true; Chat.full := false;
     Chat.calls := [] |}.

(** A form runtime whose server accepts everything. *)
Definition configRuntime : Config.Runtime :=
  {| Config.fetch := fun _ =>
       Normal {| Config.Response.ok := true; Config.Response.status := 200;
                 Config.Response.statusText := lit "OK";
                 Config.Response.json :=
                   Normal {| Config.error_field := None |} |};
     Config.refreshConfig := Normal tt;
     Config.String_of_status := fun _ => lit "200" |}.

(** Complete, valid settings. *)
Definition goodSettings : Config.AISettings :=
  {| Config.enabled := true;
     Config.apiUrl := lit "https://api.openai.com/v1";
     Config.apiKey := lit "sk-test";
     Config.model := lit "gpt-3.5-turbo";
     Config.temperature := Finite (3152519739159347 # 4503599627370496);
     Config.maxTokens := of_Z 1000 |}.

(** The same settings after the max-tokens field was emptied. *)
Definition emptiedMaxTokens : Config.AISettings :=
  Config.aiSettings
    (fst (Config.onMaxTokensChange [] (Config.worldOf goodSettings))).

(** The same settings with the model name erased. *)
Definition noModel : Config.AISettings :=
  {| Config.enabled := true;
     Config.apiUrl := lit "https://api.openai.com/v1";
     Config.apiKey := lit "sk-test";
     Config.model := [];
     Config.temperature := Finite (3152519739159347 # 4503599627370496);
     Config.maxTokens := of_Z 1000 |}.

(** A runtime whose JSON functions are inverse to each other: a cache is
    written as the one number that stdpp's enumeration of caches gives it. *)
#[local] Instance Role_eq_dec : EqDecision Chat.Role.
Proof. solve_decision. Defined.

#[local] Instance Role_countable : Countable Chat.Role :=
  inj_countable'
    (fun r => match r with Chat.user => true | Chat.assistant => false end)
    (fun b => if b then Chat.user else Chat.assistant)
    (fun r => match r with Chat.user => eq_refl | Chat.assistant => eq_refl end).

#[local] Instance MovieRecommendation_eq_dec
  : EqDecision Chat.MovieRecommendation.
Proof. solve_decision. Defined.

#[local] Instance MovieRecommendation_countable
  : Countable Chat.MovieRecommendation :=
  inj_countable'
    (fun m => (Chat.title m, Chat.year m, Chat.genre m, Chat.description m,
               Chat.poster m))
    (fun '(a, b, c, d, e) =>
       {| Chat.title := a; Chat.year := b; Chat.genre := c;
          Chat.description := d; Chat.poster := e |})
    (fun m => match m with
              | Chat.Build_MovieRecommendation _ _ _ _ _ => eq_refl
              end).

#[local] Instance ExtendedAIMessage_eq_dec : EqDecision Chat.ExtendedAIMessage.
Proof. solve_decision. Defined.

#[local] Instance ExtendedAIMessage_countable
  : Countable Chat.ExtendedAIMessage :=
  inj_countable'
    (fun m => (Chat.role m, Chat.content m, Chat.timestamp m,
               Chat.recommendations m))
    (fun '(a, b, c, d) =>
       {| Chat.role := a; Chat.content := b; Chat.timestamp := c;
          Chat.recommendations := d |})
    (fun m => match m with
              | Chat.Build_ExtendedAIMessage _ _ _ _ => eq_refl
              end).

#[local] Instance Cache_eq_dec : EqDecision Chat.Cache.t.
Proof. solve_decision. Defined.

#[local] Instance Cache_countable : Countable Chat.Cache.t :=
  inj_countable'
    (fun c => (Chat.Cache.messages c, Chat.Cache.timestamp c))
    (fun '(a, b) => {| Chat.Cache.messages := a; Chat.Cache.timestamp := b |})
    (fun c => match c with Chat.Cache.Build_t _ _ => eq_refl end).

Definition encodeCache (c : Chat.Cache.t) : JsString := [N.pos (encode c)].

Definition decodeCache (text : JsString) : option Chat.Cache.t :=
  match text with
  | [N.pos p] => decode p
  | _ => None
  end.

Definition codecRuntime : Chat.Runtime :=
  {| Chat.toISOString := fun _ => lit "2025-03-01T10:10:00.000Z";
     Chat.JSON_stringify := encodeCache;
     Chat.JSON_parse := decodeCache;
     Chat.JSON_parse_error := fun _ => None;
     Chat.sendAIRecommendMessage := fun _ => Normal reply;
     Chat.undefined_property_message :=
       lit "Cannot read properties of undefined (reading 'message')" |}.

(** A short evening: a question typed and sent, then the chat reset. *)
Definition evening : list Chat.Event :=
  [ Chat.InputChange (lit "sci-fi") 5; Chat.Submit 10 20; Chat.ResetClick 30 ].

(** A remote end that refuses with a JSON body that has an error text and
    no details: [{"error":"Rate limit exceeded"}]. *)
Definition errorBody : JsString :=
  lit "{" ++ [34%N] ++ lit "error" ++ [34%N] ++ lit ":" ++ [34%N]
  ++ lit "Rate limit exceeded" ++ [34%N] ++ lit "}".

Definition rateLimitedRuntime : Chat.Runtime :=
  {| Chat.toISOString := fun _ => lit "2025-03-01T10:10:00.000Z";
     Chat.JSON_stringify := fun _ => cacheText;
     Chat.JSON_parse := fun text =>
       if decide (text = cacheText) then Some cache else None;
     Chat.JSON_parse_error := fun text =>
       if decide (text = errorBody)
       then Some {| Chat.ErrorResponse.error := Some (lit "Rate limit exceeded");
                    Chat.ErrorResponse.details := None |}
       else None;
     Chat.sendAIRecommendMessage := fun _ => Abrupt (ErrorObject errorBody);
     Chat.undefined_property_message :=
       lit "Cannot read properties of undefined (reading 'message')" |}.

(** One of the preset questions. *)
Definition comedyPreset : Chat.Preset.t :=
  {| Chat.Preset.title := lit "Comedy";
     Chat.Preset.message := lit "Recommend a comedy for tonight" |}.

(** A question typed and sent, and the cache that this leaves. *)
Definition question : list Chat.Event :=
  [ Chat.InputChange (lit "sci-fi") 5; Chat.Submit 10 20 ].

Definition questionCache : Chat.Cache.t :=
  {| Chat.Cache.messages :=
       Chat.messages
         (Chat.state (Chat.session (rt := codecRuntime) 0 emptyStorage question));
     Chat.Cache.timestamp := 20 |}.

(** A storage that also holds an entry of another part of the site. *)
Definition sharedStorage : Chat.LocalStorage :=
  {| Chat.items := {[ lit "theme" := lit "dark" ]};
     Chat.denied := false; Chat.full := false; Chat.calls := [] |}.

Definition fullStorage : Chat.LocalStorage :=
  {| Chat.items := ∅; Chat.denied := false; Chat.full := true;
     Chat.calls := [] |}.

(** A server that refuses with a body that is no JSON. *)
Definition refusingRuntime : Config.Runtime :=
  {| Config.fetch := fun _ =>
       Normal {| Config.Response.ok := false; Config.Response.status := 502;
                 Config.Response.statusText := lit "Bad Gateway";
                 Config.Response.json :=
                   Abrupt (ErrorObject (lit "Unexpected token <")) |};
     Config.refreshConfig := Normal tt;
     Config.String_of_status := fun _ => lit "502" |}.

(** A stored configuration with the endpoint missing and a temperature of
    zero. *)
Definition storedConfig : Config.AdminConfig.AIRecommend :=
  {| Config.AdminConfig.enabled := Some true;
     Config.AdminConfig.apiUrl := None;
     Config.AdminConfig.apiKey := Some (lit "sk-test");
     Config.AdminConfig.model := Some [];
     Config.AdminConfig.temperature := Some (of_Z 0);
     Config.AdminConfig.maxTokens := None |}.

Definition quietForm : Config.Timed :=
  {| Config.world := Config.worldOf goodSettings; Config.timers := [] |}.

Definition video : Card.YouTubeVideo :=
  {| Card.videoId := lit "aqz-KE-bpKQ";
     Card.title := lit "Big Buck Bunny";
     Card.thumbnailUrl := lit "https://i.ytimg.com/vi/aqz-KE-bpKQ/mqdefault.jpg";
     Card.channelTitle := lit "Blender";
     Card.publishedAt := lit "2014-11-10T14:05:55Z" |}.

End Samples.

(* ===================================================================== *)
(** * Facts about the JavaScript operations *)
(* ===================================================================== *)

Module JsFacts.
Import Js Spec.

Lemma trimStart_nil (s : JsString) : trimStart s = [] <-> blank s = true.
Proof.
  unfold blank. induction s as [| c s IH]; simpl.
  - tauto.
  - destruct (isWhiteSpace c); simpl.
    + exact IH.
    + split; discriminate.
Qed.

Lemma trimStart_keeps_last (s : JsString) (c : N) :
  isWhiteSpace c = false -> trimStart (s ++ [c]) <> [].
Proof.
  intros Hc Hnil. apply trimStart_nil in Hnil. unfold blank in Hnil.
  rewrite forallb_app in Hnil. simpl in Hnil. rewrite Hc in Hnil.
  rewrite andb_false_r in Hnil. discriminate.
Qed.

Lemma trimStart_head (s : JsString) :
  match trimStart s with
  | c :: _ => isWhiteSpace c = false
  | [] => True
  end.
Proof.
  induction s as [| c s IH]; simpl; [exact I |].
  destruct (isWhiteSpace c) eqn:E; [exact IH | exact E].
Qed.

(** [!s.trim()] holds exactly for the blank strings. *)
Lemma trim_truthy (s : JsString) : truthy (trim s) = negb (blank s).
Proof.
  unfold trim, trimEnd.
  destruct (blank s) eqn:B; simpl.
  - apply trimStart_nil in B. rewrite B. reflexivity.
  - pose proof (trimStart_head s) as Hh.
    destruct (trimStart s) as [| c r] eqn:E.
    + apply trimStart_nil in E. congruence.
    + simpl rev.
      pose proof (trimStart_keeps_last (rev r) c Hh) as Hne.
      destruct (trimStart (rev r ++ [c])) as [| d u]; [congruence |].
      simpl. destruct (rev u ++ [d]) eqn:F; [| reflexivity].
      destruct (rev u); discriminate.
Qed.

Lemma slice_negative {A : Type} (n : nat) (l : list A) :
  (0 < n)%nat -> slice (- Z.of_nat n) l = last_n n l.
Proof.
  intros Hn. unfold slice, last_n.
  destruct (Z.ltb_spec (- Z.of_nat n) 0) as [_ | H]; [| lia].
  f_equal. lia.
Qed.

Lemma last_n_length {A : Type} (n : nat) (l : list A) :
  length (last_n n l) = Nat.min n (length l).
Proof. unfold last_n. rewrite length_drop. lia. Qed.

Lemma last_n_all {A : Type} (n : nat) (l : list A) :
  (length l <= n)%nat -> last_n n l = l.
Proof.
  intros H. unfold last_n. replace (length l - n)%nat with 0%nat by lia.
  apply drop_0.
Qed.

Lemma last_n_suffix {A : Type} (n : nat) (l : list A) :
  take (length l - n) l ++ last_n n l = l.
Proof. unfold last_n. apply take_drop. Qed.

(** Numerals up to 2^53 are read exactly. *)
Lemma round_to_double_exact (n : Z) :
  0 <= n < 2 ^ 53 -> round_to_double n = of_Z n.
Proof.
  intros [H0 H53]. unfold round_to_double.
  assert (Hb : (Z.log2 n + 1 <=? 53) = true).
  { apply Z.leb_le.
    destruct (Z.eq_dec n 0) as [-> | Hn]; [simpl; lia |].
    assert (Z.log2 n < 53) by (apply Z.log2_lt_pow2; lia). lia. }
  rewrite Hb. reflexivity.
Qed.

(** Beyond, the nearest double is taken, ties to the even one. *)
Lemma parseInt_rounds :
  parseInt (lit "9007199254740993") = of_Z 9007199254740992
  /\ parseInt (lit "9007199254740995") = of_Z 9007199254740996
  /\ parseInt (lit "-0x20000000000003") = of_Z (-9007199254740996)
  /\ parseInt (lit " 42px") = of_Z 42.
Proof. repeat apply conj; vm_compute; reflexivity. Qed.

Lemma trimStart_fixed (s : JsString) :
  match s with c :: _ => isWhiteSpace c = false | [] => True end ->
  trimStart s = s.
Proof. destruct s as [| c s]; simpl; [reflexivity |]. intros ->. reflexivity. Qed.

Lemma trimStart_split (s : JsString) :
  exists pre, s = pre ++ trimStart s /\ blank pre = true.
Proof.
  induction s as [| c s (pre & Hs & Hb)]; simpl.
  - exists []. auto.
  - destruct (isWhiteSpace c) eqn:E.
    + exists (c :: pre). split; [simpl; congruence |].
      unfold blank in *. simpl. rewrite E. exact Hb.
    + exists []. auto.
Qed.

Lemma trimStart_idempotent (s : JsString) : trimStart (trimStart s) = trimStart s.
Proof. apply trimStart_fixed. apply trimStart_head. Qed.

(* The last unit of what [trimEnd] leaves is no white space. *)
Lemma trimEnd_last (s : JsString) :
  match rev (trimEnd s) with c :: _ => isWhiteSpace c = false | [] => True end.
Proof. unfold trimEnd. rewrite rev_involutive. apply trimStart_head. Qed.

Lemma trimEnd_keeps_head (s : JsString) :
  match s with c :: _ => isWhiteSpace c = false | [] => True end ->
  match trimEnd s with c :: _ => isWhiteSpace c = false | [] => True end.
Proof.
  intros Hs. unfold trimEnd.
  destruct (trimStart_split (rev s)) as (pre & Hrev & _).
  assert (Hs' : s = rev (trimStart (rev s)) ++ rev pre).
  { rewrite <- rev_app_distr, <- Hrev, rev_involutive. reflexivity. }
  destruct (rev (trimStart (rev s))) as [| c r]; [exact I |].
  rewrite Hs' in Hs. exact Hs.
Qed.

Lemma trim_head (s : JsString) :
  match trim s with c :: _ => isWhiteSpace c = false | [] => True end.
Proof. unfold trim. apply trimEnd_keeps_head. apply trimStart_head. Qed.

Lemma trimEnd_idempotent (s : JsString) : trimEnd (trimEnd s) = trimEnd s.
Proof.
  unfold trimEnd. rewrite rev_involutive. rewrite trimStart_idempotent.
  reflexivity.
Qed.

Lemma trim_idempotent (s : JsString) : trim (trim s) = trim s.
Proof.
  unfold trim at 1. rewrite (trimStart_fixed (trim s)) by apply trim_head.
  unfold trim. apply trimEnd_idempotent.
Qed.

Lemma trim_not_blank (s : JsString) : blank s = false -> blank (trim s) = false.
Proof.
  intros Hb. pose proof (trim_truthy s) as Ht. rewrite Hb in Ht. simpl in Ht.
  pose proof (trim_head s) as Hh.
  destruct (trim s) as [| c r]; [discriminate |].
  unfold blank. simpl. rewrite Hh. reflexivity.
Qed.

Lemma startsWith_spec (pattern s : JsString) :
  startsWith pattern s = true <-> exists rest, s = pattern ++ rest.
Proof.
  revert s. induction pattern as [| p pattern IH]; intros s; simpl.
  - split; eauto.
  - destruct s as [| c s].
    + split; [discriminate | intros (rest & H); discriminate].
    + rewrite andb_true_iff, IH, N.eqb_eq. split.
      * intros (-> & rest & ->). eauto.
      * intros (rest & [= -> ->]). eauto.
Qed.

Lemma startsWith_app (pattern s more : JsString) :
  startsWith pattern s = true -> startsWith pattern (s ++ more) = true.
Proof.
  rewrite !startsWith_spec. intros (rest & ->).
  exists (rest ++ more). apply eq_sym, app_assoc.
Qed.

Lemma includes_app (s more pattern : JsString) :
  includes s pattern = true -> includes (s ++ more) pattern = true.
Proof.
  induction s as [| c s IH]; simpl.
  - rewrite orb_false_r. intros H.
    destruct pattern; [| discriminate]. destruct more; reflexivity.
  - rewrite !orb_true_iff. intros [H | H].
    + left. apply (startsWith_app pattern (c :: s) more H).
    + right. auto.
Qed.

(** The first piece of a split: it ends where the separator first occurs. *)
Lemma split_from_hd (separator s piece : JsString) :
  separator <> [] ->
  exists pre,
    hd [] (split_from separator s 0 piece) = rev piece ++ pre
    /\ (s = pre \/ exists rest, s = pre ++ separator ++ rest)
    /\ (includes pre separator = false).
Proof.
  intros Hsep. revert piece.
  induction s as [| c s IH]; intros piece.
  - exists []. simpl. rewrite app_nil_r. repeat split; auto.
    destruct separator; [congruence | reflexivity].
  - cbn [split_from]. destruct (startsWith separator (c :: s)) eqn:E.
    + exists []. cbn [hd]. rewrite app_nil_r. repeat split.
      * right. apply startsWith_spec in E. exact E.
      * destruct separator; [congruence | reflexivity].
    + destruct (IH (c :: piece)) as (pre & Hhd & Hs & Hin).
      exists (c :: pre). rewrite Hhd. cbn [rev]. rewrite <- app_assoc.
      repeat split; auto.
      * destruct Hs as [-> | (rest & ->)]; [left | right; exists rest];
          reflexivity.
      * cbn [includes]. rewrite Hin, orb_false_r.
        destruct (startsWith separator (c :: pre)) eqn:E2; [| reflexivity].
        destruct Hs as [-> | (rest & ->)]; [congruence |].
        apply (startsWith_app _ _ (separator ++ rest)) in E2.
        simpl in E, E2. congruence.
Qed.

End JsFacts.

Module CardFacts.
Import Js Card.

Lemma substring_prefix (s : JsString) (n : Z) :
  substring s 0 n = take (Z.to_nat n) s.
Proof.
  unfold substring.
  assert (Hlen : 0 <= Z.of_nat (length s)) by lia.
  destruct (Z_le_gt_dec n 0) as [Hn | Hn].
  - replace (Z.to_nat n) with 0%nat by lia.
    rewrite (Z.max_r n 0) by lia.
    rewrite !Z.min_l by lia. simpl. reflexivity.
  - rewrite (Z.max_l n 0) by lia.
    rewrite (Z.max_l 0 0), (Z.min_l 0 _) by lia.
    rewrite (Z.min_l 0 _) by lia.
    rewrite Z.max_r by lia. rewrite Z.sub_0_r. simpl. rewrite drop_0.
    destruct (Z_le_gt_dec n (Z.of_nat (length s))) as [Hle | Hgt].
    + rewrite Z.min_l by lia. reflexivity.
    + rewrite Z.min_r by lia. rewrite Nat2Z.id.
      rewrite !take_ge by lia. reflexivity.
Qed.

(** C10. [truncateTitle] with the default limit returns a title of at
    most 50 code units unchanged, and otherwise its first 50 code units
    followed by three dots; the result is never longer than 53. *)
Theorem truncateTitle_spec (title : JsString) :
  ((length title <= 50)%nat -> truncateTitle title None = title)
  /\ ((50 < length title)%nat ->
      truncateTitle title None = take 50 title ++ lit "..."
      /\ length (truncateTitle title None) = 53%nat)
  /\ (length (truncateTitle title None) <= 53)%nat.
Proof.
  unfold truncateTitle. simpl default.
  destruct (Z.of_nat (length title) >? 50) eqn:E.
  - apply Z.gtb_lt in E.
    rewrite substring_prefix. change (Z.to_nat 50) with 50%nat.
    assert (Hl : length (take 50 title ++ lit "...") = 53%nat).
    { rewrite length_app, length_take.
      change (length (lit "...")) with 3%nat. lia. }
    split; [lia | split; [auto | lia]].
  - assert (Hle : Z.of_nat (length title) <= 50).
    { destruct (Z.gtb_spec (Z.of_nat (length title)) 50); [discriminate | lia]. }
    split; [auto | split; lia].
Qed.

Lemma truncateTitle_spec_witness :
  truncateTitle (lit "Big Buck Bunny") None = lit "Big Buck Bunny".
Proof.
  apply (proj1 (truncateTitle_spec (lit "Big Buck Bunny"))).
  vm_compute. lia.
Defined.

Lemma truncateTitle_form (title : JsString) (maxLength : Z) :
  truncateTitle title (Some maxLength)
  = if Z.of_nat (length title) <=? maxLength then title
    else take (Z.to_nat maxLength) title ++ lit "...".
Proof.
  unfold truncateTitle. cbv zeta.
  change (default 50 (Some maxLength)) with maxLength.
  rewrite substring_prefix.
  destruct (Z.leb_spec (Z.of_nat (length title)) maxLength) as [H | H].
  - replace (Z.of_nat (length title) >? maxLength) with false; [reflexivity |].
    symmetry. rewrite Z.gtb_ltb. apply Z.ltb_ge. lia.
  - replace (Z.of_nat (length title) >? maxLength) with true; [reflexivity |].
    symmetry. rewrite Z.gtb_ltb. apply Z.ltb_lt. lia.
Qed.

(** X23. Shortening a title twice to the same length gives what
    shortening once gives; the short title starts as the title does, and
    it is the title itself or at most three units longer than the limit. *)
Theorem truncateTitle_idempotent (title : JsString) (maxLength : Z) :
  let short := truncateTitle title (Some maxLength) in
  truncateTitle short (Some maxLength) = short
  /\ take (Z.to_nat maxLength) short = take (Z.to_nat maxLength) title
  /\ (Z.of_nat (length short) <= Z.max maxLength 0 + 3
      \/ short = title).
Proof.
  cbv zeta. rewrite !truncateTitle_form.
  destruct (Z.of_nat (length title) <=? maxLength) eqn:E.
  - rewrite ?E. repeat apply conj; auto.
  - apply Z.leb_gt in E.
    assert (Hl : length (take (Z.to_nat maxLength) title) = Z.to_nat maxLength).
    { rewrite length_take. lia. }
    assert (Hlen : length (take (Z.to_nat maxLength) title ++ lit "...")
                   = (Z.to_nat maxLength + 3)%nat).
    { rewrite length_app, Hl. reflexivity. }
    assert (Htake : take (Z.to_nat maxLength)
                      (take (Z.to_nat maxLength) title ++ lit "...")
                    = take (Z.to_nat maxLength) title).
    { rewrite take_app_le by lia. apply take_ge. lia. }
    rewrite Hlen, Htake.
    replace (Z.of_nat (Z.to_nat maxLength + 3) <=? maxLength) with false
      by (symmetry; apply Z.leb_gt; lia).
    repeat apply conj; auto. left. lia.
Qed.

(** X24. Once the thumbnail has failed to load it never comes back:
    whatever the user does with the card afterwards (play, close, open in
    a new tab), the card shows the player or the placeholder. *)
Theorem thumbnail_never_returns (video : YouTubeVideo) (events : list Event)
    (s : State) :
  imageError s = true ->
  let s' := fold_left (fun s e => handle video e s) events s in
  imageError s' = true
  /\ forall src, media video s' <> Thumbnail src.
Proof.
  revert s. induction events as [| e events IH]; intros s He; cbn [fold_left].
  - split; [exact He |]. intros src. unfold media. rewrite He.
    destruct (isPlaying s); discriminate.
  - apply IH. destruct e; simpl; auto.
Qed.

Lemma thumbnail_never_returns_witness :
  media Samples.video
    (fold_left (fun s e => handle Samples.video e s)
       [EmbedPlay; OpenInNewTab; ClosePlayer]
       (handle Samples.video ImageError initialState))
  = Placeholder.
Proof.
  destruct (thumbnail_never_returns Samples.video
              [EmbedPlay; OpenInNewTab; ClosePlayer]
              (handle Samples.video ImageError initialState) eq_refl)
    as [He _].
  unfold media. rewrite He. reflexivity.
Defined.

End CardFacts.

(* ===================================================================== *)
(** * The chat modal *)
(* ===================================================================== *)

Module ChatFacts.
Import Js Spec Chat JsFacts.
Local Open Scope js_scope.

Section Facts.
Context `{rt : Runtime}.

Ltac fields :=
  cbn [fst snd state pending messagesSet localStorage console outbox
       messages inputMessage isLoading error items denied full calls] in *.

(* Unfolds the storage calls and the effects down to records. *)
Ltac run :=
  unfold resetChat, mount, initialWorld, initialState, loadEffect, await,
    render, saveEffect, call_sendAIRecommendMessage, setMessages,
    setInputMessage, setIsLoading, setError, console_error, getItem, setItem,
    removeItem, try_catch, try_finally, bind, ret, throw, get, modify,
    settle, commit, with_pending, with_storage, record_call, with_items in *;
  fields.

(* Unfolds a handler but keeps each [render] as one step. *)
Ltac run_handler :=
  unfold dispatch, await, call_sendAIRecommendMessage, setMessages,
    setInputMessage, setIsLoading, setError, console_error,
    try_catch, try_finally, bind, ret, throw, get, modify,
    settle, with_pending in *;
  fields.

(* Splits on the innermost scrutinee of the goal. *)
Ltac split_match :=
  match goal with
  | |- context [match ?x with _ => _ end] =>
      lazymatch x with
      | context [match _ with _ => _ end] => fail
      | _ => destruct x eqn:?
      end
  end;
  fields.

(** The save effect never throws and touches storage and console only. *)
Lemma saveEffect_frame (t : Z) (w : World) :
  let w' := fst (saveEffect t w) in
  state w' = state w /\ pending w' = pending w
  /\ messagesSet w' = messagesSet w /\ outbox w' = outbox w
  /\ snd (saveEffect t w) = Normal tt.
Proof. run. repeat split_match; auto. Qed.

(** A render shows the pending state, clears the mark, sends nothing and
    never throws. *)
Lemma render_frame (t : Z) (w : World) :
  let w' := fst (render t w) in
  state w' = pending w /\ pending w' = pending w
  /\ messagesSet w' = false /\ outbox w' = outbox w
  /\ snd (render t w) = Normal tt.
Proof. run. repeat split_match; auto. Qed.

(* Replaces the next [render] by the world it yields, with what is known
   about it. *)
Ltac step_render :=
  match goal with
  | |- context [render ?t ?w] =>
      let H := fresh "Hrender" in
      pose proof (render_frame t w) as H; cbv zeta in H;
      destruct (render t w) as [? ?]; fields;
      destruct H as (? & ? & ? & ? & ->); fields
  end.

Ltac finish :=
  repeat match goal with H : _ = _ |- _ => rewrite H; fields end;
  auto.

(* Names the outcome of a handler, so that the handler occurs once. *)
Ltac isolate h :=
  let r := fresh "r" in
  let E := fresh "E" in
  remember h as r eqn:E; revert E.

(* Enters [sendMessage] past its guard, up to the first render. *)
Ltac start_send Hb Hl :=
  unfold dispatch, sendMessage;
  unfold bind at 1; unfold get at 1;
  rewrite trim_truthy, Hb, Hl; cbn [negb orb];
  run_handler; step_render.

(** C9. For a blank input (empty or white space only), and for any input
    while a request is in flight ([isLoading] is true), [sendMessage] does
    nothing: the world it returns is the world it was given, so transcript,
    input buffer, error, loading flag, storage and the list of requests
    sent are all unchanged. *)
Theorem sendMessage_noop (content : JsString) (now later : Z) (w : World) :
  blank content = true \/ isLoading (state w) = true ->
  sendMessage content now later w = (w, Normal tt).
Proof.
  intros H. unfold sendMessage, bind, get, ret.
  rewrite trim_truthy.
  destruct H as [-> | ->]; simpl; [reflexivity |].
  rewrite orb_true_r. reflexivity.
Qed.

(** C1. For every transcript and every input that is not blank (and no
    request in flight), [sendMessage] issues exactly one call of the
    remote end, and its argument is the last 8 messages of the transcript
    with the new user message appended: 8 messages at most, and the whole
    list when it has 8 or fewer, whatever the length of the transcript. *)
Theorem sendMessage_request (content : JsString) (now later : Z) (w : World) :
  blank content = false -> isLoading (state w) = false ->
  let transcript := messages (state w) ++ [userMessageOf content now] in
  outbox (fst (sendMessage content now later w))
    = outbox w ++ [last_n 8 transcript]
  /\ length (last_n 8 transcript) = Nat.min 8 (length transcript)
  /\ ((length transcript <= 8)%nat -> last_n 8 transcript = transcript).
Proof.
  intros Hb Hl transcript.
  split; [| split; [apply last_n_length | apply last_n_all]].
  rewrite <- (slice_negative 8) by lia. change (- Z.of_nat 8) with (-8).
  unfold sendMessage.
  unfold bind at 1. unfold get at 1.
  rewrite trim_truthy, Hb, Hl. cbn [negb orb].
  run_handler. step_render.
  destruct (sendAIRecommendMessage _) as [response | thrown].
  - destruct (Response.choices response); fields; auto.
    destruct (JSON_parse_error _); fields; auto.
  - destruct thrown as [message | | |];
      [destruct (JSON_parse_error message) |..]; fields; auto.
Qed.

(** C3, amended. When the send fails, by a rejected promise or by a reply
    without a first choice, the transcript React shows afterwards is the
    prior transcript (with whatever update was still queued) plus the user
    message, and no assistant message; the error banner is set to a message
    with optional details: when the error message decodes to a JSON body,
    the [error] text of the body (the raw message when the body has none)
    with the [details] of the body, which are missing when the body has
    none; the raw error message with a fixed hint otherwise; and two fixed
    texts when what was thrown is no [Error]; the loading flag is cleared,
    and exactly one request has left: nothing is retried. *)
Theorem sendMessage_failure (content : JsString) (now later : Z) (w : World)
    (e : Thrown) :
  blank content = false -> isLoading (state w) = false ->
  let userMessage := userMessageOf content now in
  let history := last_n 8 (messages (state w) ++ [userMessage]) in
  failure (sendAIRecommendMessage history) = Some e ->
  let w' := dispatch later (sendMessage content now later) w in
  messages (state w') = messages (pending w) ++ [userMessage]
  /\ error (state w') = Some
       match e with
       | ErrorObject message =>
           match JSON_parse_error message with
           | Some errorResponse =>
               {| ErrorBanner.message :=
                    or_else (ErrorResponse.error errorResponse) message;
                  ErrorBanner.details := ErrorResponse.details errorResponse |}
           | None =>
               {| ErrorBanner.message := message;
                  ErrorBanner.details := Some DETAILS_CONTACT_ADMIN |}
           end
       | _ =>
           {| ErrorBanner.message := MESSAGE_RETRY_LATER;
              ErrorBanner.details := Some DETAILS_UNKNOWN |}
       end
  /\ isLoading (state w') = false
  /\ outbox w' = outbox w ++ [history].
Proof.
  intros Hb Hl userMessage history. subst history.
  rewrite <- (slice_negative 8) by lia. change (- Z.of_nat 8) with (-8).
  unfold failure.
  destruct (sendAIRecommendMessage _) as [response | thrown] eqn:Hsend.
  - destruct (Response.choices response) as [| first rest] eqn:Hch;
      [| discriminate].
    intros [= <-].
    repeat apply conj; start_send Hb Hl; fold userMessage; rewrite Hsend, Hch;
      destruct (JSON_parse_error undefined_property_message); fields;
      step_render; finish.
  - intros [= <-].
    repeat apply conj; start_send Hb Hl; fold userMessage; rewrite Hsend;
      (destruct thrown as [message | | |];
       [destruct (JSON_parse_error message) |..]);
      fields; step_render; finish.
Qed.

(** C6. When the send succeeds (the promise resolves to a response with a
    first choice), the transcript afterwards is the full transcript, user
    message included and nothing cut off, followed by exactly one assistant
    message; its content is [response.choices[0].message.content] and its
    recommendations are those of the response, or the empty list when the
    response has none. No error is shown and the loading flag is cleared. *)
Theorem sendMessage_success (content : JsString) (now later : Z) (w : World)
    (response : Response.t) (first : Response.Choice)
    (rest : list Response.Choice) :
  blank content = false -> isLoading (state w) = false ->
  let userMessage := userMessageOf content now in
  let transcript := messages (state w) ++ [userMessage] in
  sendAIRecommendMessage (last_n 8 transcript) = Normal response ->
  Response.choices response = first :: rest ->
  let w' := dispatch later (sendMessage content now later) w in
  let assistantMessage := assistantMessageOf response first later in
  messages (state w') = transcript ++ [assistantMessage]
  /\ role assistantMessage = assistant
  /\ Chat.content assistantMessage = Response.content (Response.message first)
  /\ recommendations assistantMessage
     = Some match Response.recommendations response with
            | Some list => list
            | None => []
            end
  /\ error (state w') = None
  /\ isLoading (state w') = false.
Proof.
  intros Hb Hl userMessage transcript. subst transcript.
  rewrite <- (slice_negative 8) by lia. change (- Z.of_nat 8) with (-8).
  intros Hsend Hch. cbv zeta.
  repeat apply conj; try reflexivity;
    try (simpl; destruct (Response.recommendations response); reflexivity);
    start_send Hb Hl; fold userMessage; rewrite Hsend, Hch; fields;
    step_render; finish.
Qed.

(** Every [setMessages] marks the transcript as changed, which is what
    makes the next render run the save effect. *)
Lemma setMessages_marks
    (update : list ExtendedAIMessage -> list ExtendedAIMessage) (w : World) :
  let w' := fst (setMessages update w) in
  messagesSet w' = true
  /\ messages (pending w') = update (messages (pending w))
  /\ state w' = state w.
Proof. run. auto. Qed.

(** C5. After a change of the transcript (a [setMessages] since the last
    render), the render that shows it calls [setItem] once, on the one
    storage key, with the encoding of the whole transcript now shown
    together with the time of the call; where the browser accepts the
    write, that text is afterwards the value of the key and no other entry
    has changed. *)
Theorem render_saves_transcript (t : Z) (w : World) :
  messagesSet w = true ->
  let w' := fst (render t w) in
  let text := JSON_stringify {| Cache.messages := messages (state w');
                                Cache.timestamp := t |} in
  messages (state w') = messages (pending w)
  /\ calls (localStorage w')
     = calls (localStorage w) ++ [SetItem STORAGE_KEY text]
  /\ (denied (localStorage w) = false -> full (localStorage w) = false ->
      items (localStorage w') = <[STORAGE_KEY := text]> (items (localStorage w))).
Proof.
  intros Hset. cbv zeta. run. rewrite Hset. fields.
  destruct (denied (localStorage w)), (full (localStorage w)); fields;
    repeat apply conj; try reflexivity; intros; congruence.
Qed.

(** C2. Mounting the modal over a readable storage: when the key holds a
    cache record less than 1800 seconds old, the transcript becomes the
    cached messages (each message read without a time stamp is given the
    present instant; messages that carry one are restored as they are);
    when the record is 1800 seconds old or older, or when the key holds
    nothing, the transcript becomes the single welcome message, and the
    stored record is replaced by the encoding of that transcript as soon as
    the browser accepts the write. *)
Theorem mount_restores_or_welcomes (t : Z) (ls : LocalStorage) :
  denied ls = false ->
  let w' := fst (mount t (initialWorld ls)) in
  let welcome :=
    JSON_stringify {| Cache.messages := [welcomeMessage t];
                      Cache.timestamp := t |} in
  (forall text cache,
      items ls !! STORAGE_KEY = Some text -> truthy text = true ->
      JSON_parse text = Some cache ->
      (t - Cache.timestamp cache < 1800 * 1000 ->
       messages (state w')
         = List.map (restoreTimestamp t) (Cache.messages cache)
       /\ (Forall (fun msg => truthy_opt (timestamp msg) = true)
                  (Cache.messages cache) ->
           messages (state w') = Cache.messages cache))
      /\ (1800 * 1000 <= t - Cache.timestamp cache ->
          messages (state w') = [welcomeMessage t]
          /\ (full ls = false ->
              items (localStorage w') = <[STORAGE_KEY := welcome]> (items ls))))
  /\ (items ls !! STORAGE_KEY = None ->
      messages (state w') = [welcomeMessage t]
      /\ (full ls = false ->
          items (localStorage w') = <[STORAGE_KEY := welcome]> (items ls))).
Proof.
  intros Hd. cbv zeta. split.
  - intros text cache Hget Htruthy Hparse. split.
    + intros Hfresh.
      assert (Hm : messages (state (fst (mount t (initialWorld ls))))
                   = List.map (restoreTimestamp t) (Cache.messages cache)).
      { assert (Hlt : (t - Cache.timestamp cache <? 30 * 60 * 1000) = true)
          by (apply Z.ltb_lt; lia).
        run. rewrite Hd. fields. rewrite Hget, Htruthy, Hparse, Hlt.
        fields. destruct (full ls); reflexivity. }
      split; [exact Hm |].
      intros Hall. rewrite Hm. clear Hm.
      induction Hall as [| msg l Hmsg _ IH]; [reflexivity |].
      simpl. rewrite IH. f_equal.
      destruct msg as [r c [ts |] recs]; simpl in *; [| discriminate].
      unfold restoreTimestamp, or_else. simpl. rewrite Hmsg. reflexivity.
    + intros Hstale.
      assert (Hlt : (t - Cache.timestamp cache <? 30 * 60 * 1000) = false)
        by (apply Z.ltb_ge; lia).
      split.
      * run. rewrite Hd. fields. rewrite Hget, Htruthy, Hparse, Hlt. fields.
        destruct (full ls); reflexivity.
      * intros Hfull. run. rewrite Hd. fields.
        rewrite Hget, Htruthy, Hparse, Hlt. fields. rewrite Hfull. fields.
        apply insert_insert_eq.
  - intros Hnone. split.
    + run. rewrite Hd. fields. rewrite Hnone. fields.
      destruct (full ls); reflexivity.
    + intros Hfull. run. rewrite Hd. fields. rewrite Hnone. fields.
      rewrite Hfull. fields. apply insert_insert_eq.
Qed.

(** C7 (where the code departs from it). When reading the cache fails on
    mount, because the browser denies the storage or because the stored
    text does not parse, the failure is caught and logged and no error
    banner is shown, but the rest of the load effect is skipped with it:
    the transcript stays empty and the welcome message is not shown. *)
Theorem load_failure_skips_welcome (t : Z) (ls : LocalStorage) :
  denied ls = true
  \/ (exists text, denied ls = false /\ items ls !! STORAGE_KEY = Some text
                   /\ truthy text = true /\ JSON_parse text = None) ->
  let w' := fst (mount t (initialWorld ls)) in
  messages (state w') = []
  /\ messages (state w') <> [welcomeMessage t]
  /\ error (state w') = None
  /\ lit "Failed to load messages from cache" ∈ console w'.
Proof.
  intros H. cbv zeta.
  assert (Hm : messages (state (fst (mount t (initialWorld ls)))) = []
               /\ error (state (fst (mount t (initialWorld ls)))) = None
               /\ lit "Failed to load messages from cache"
                    ∈ console (fst (mount t (initialWorld ls)))).
  { destruct H as [Hd | (text & Hd & Hget & Htruthy & Hparse)].
    - run. rewrite Hd. fields. repeat apply conj; try reflexivity.
      set_solver.
    - run. rewrite Hd. fields. rewrite Hget, Htruthy, Hparse. fields.
      destruct (full ls); fields; repeat apply conj; try reflexivity;
        set_solver. }
  destruct Hm as (Hm & He & Hc). rewrite Hm.
  repeat apply conj; auto; discriminate.
Qed.

(** The sibling path: a failing [removeItem] in [resetChat] is caught and
    logged, and the rest of the reset still applies. *)
Lemma resetChat_survives_failure (t : Z) (w : World) :
  denied (localStorage w) = true ->
  let w' := dispatch t (resetChat t) w in
  messages (state w') = [welcomeMessage t]
  /\ error (state w') = None
  /\ inputMessage (state w') = []
  /\ lit "Failed to clear messages cache" ∈ console w'.
Proof.
  intros Hd. cbv zeta. unfold dispatch. run. rewrite Hd. fields.
  repeat apply conj; try reflexivity. set_solver.
Qed.

(** X13. A failing write in the save effect is caught and logged; the
    state is rendered all the same, no banner appears, and [setItem] is
    called once. *)
Lemma save_failure_swallowed (t : Z) (w : World) :
  messagesSet w = true ->
  denied (localStorage w) = true \/ full (localStorage w) = true ->
  let w' := fst (render t w) in
  state w' = pending w
  /\ console w' = console w ++ [lit "Failed to save messages to cache"]
  /\ length (calls (localStorage w')) = S (length (calls (localStorage w))).
Proof.
  intros Hset Hfail. cbv zeta. run. rewrite Hset. fields.
  destruct (denied (localStorage w)), (full (localStorage w)); fields;
    try (destruct Hfail; discriminate);
    repeat apply conj; try reflexivity; rewrite length_app; simpl; lia.
Qed.

(** ** The storage follows the transcript

    Where the browser accepts the writes, the key holds the whole
    transcript on display after mounting and after every event. *)

Ltac run_all :=
  unfold step, handler, handleSubmit, handleKeyDown, handlePresetClick,
    sendMessage, dispatch in *;
  run.

Ltac settled :=
  unfold rendered, healthy, synced; fields;
  (split; [auto | split; [auto |]]);
  eauto; try (eexists; rewrite lookup_insert_eq; reflexivity).

Lemma sendMessage_keeps_synced (content : JsString) (now later : Z)
    (w : World) :
  rendered w -> healthy w -> synced w ->
  let w' := dispatch later (sendMessage content now later) w in
  rendered w' /\ healthy w' /\ synced w'.
Proof.
  intros [Hp Hs] [Hd Hf] [t0 Ht0]. cbv zeta.
  isolate (dispatch later (sendMessage content now later) w).
  run_all.
  destruct (negb (truthy (trim content)) || isLoading (state w)); fields.
  - rewrite Hs, Hp. intros ->. settled.
  - rewrite Hd, Hf. fields.
    destruct (sendAIRecommendMessage _) as [response | thrown]; fields.
    + destruct (Response.choices response); fields.
      * destruct (JSON_parse_error _); fields; intros ->; settled.
      * rewrite ?Hd, ?Hf. fields. intros ->. settled.
    + destruct thrown as [message | | |];
        [destruct (JSON_parse_error message) |..]; fields; intros ->;
        settled.
Qed.

Lemma step_keeps_synced (e : Event) (w : World) :
  rendered w -> healthy w -> synced w ->
  rendered (step e w) /\ healthy (step e w) /\ synced (step e w).
Proof.
  intros Hr Hh Hs.
  destruct e as [now later | key shiftKey now later | preset now later
                 | t | value t | t].
  - apply (sendMessage_keeps_synced (inputMessage (state w)) now later w);
      assumption.
  - unfold step, handler, time_of, handleKeyDown.
    destruct (bool_decide (key = lit "Enter") && negb shiftKey) eqn:Hk.
    + exact (sendMessage_keeps_synced (inputMessage (state w))
               now later w Hr Hh Hs).
    + destruct Hr as [Hp Hm], Hh as [Hd Hf], Hs as [t0 Ht0].
      unfold dispatch. run. rewrite Hm, Hp. settled.
  - apply (sendMessage_keeps_synced (Preset.message preset) now later w);
      assumption.
  - destruct Hr as [Hp Hm], Hh as [Hd Hf], Hs as [t0 Ht0].
    run_all. cbn [time_of]. rewrite Hd, Hf. fields. settled.
  - destruct Hr as [Hp Hm], Hh as [Hd Hf], Hs as [t0 Ht0].
    run_all. rewrite Hm, Hp. settled.
  - destruct Hr as [Hp Hm], Hh as [Hd Hf], Hs as [t0 Ht0].
    run_all. rewrite Hm, Hp. settled.
Qed.

Lemma mount_synced (t : Z) (ls : LocalStorage) :
  denied ls = false -> full ls = false ->
  let w' := fst (mount t (initialWorld ls)) in
  rendered w' /\ healthy w' /\ synced w'.
Proof.
  intros Hd Hf. cbv zeta. isolate (mount t (initialWorld ls)).
  run. rewrite Hd, Hf. fields.
  destruct (items ls !! STORAGE_KEY) as [text |]; fields.
  - destruct (truthy text); fields.
    + destruct (JSON_parse text) as [cache |]; fields.
      * destruct (t - Cache.timestamp cache <? 30 * 60 * 1000); fields;
          rewrite ?Hd, ?Hf; fields; intros ->; settled.
      * rewrite ?Hd, ?Hf; fields; intros ->; settled.
    + rewrite ?Hd, ?Hf; fields; intros ->; settled.
  - rewrite ?Hd, ?Hf; fields; intros ->; settled.
Qed.

(** ** More about the modal *)

(** What a send that gets past its guard leaves behind, whatever the
    storage does. *)
Lemma send_outcome (content : JsString) (now later : Z) (w : World) :
  blank content = false -> isLoading (state w) = false ->
  let userMessage := userMessageOf content now in
  let updated := messages (state w) ++ [userMessage] in
  let w' := dispatch later (sendMessage content now later) w in
  outbox w' = outbox w ++ [slice (-8) updated]
  /\ pending w' = state w' /\ messagesSet w' = false
  /\ state w'
     = match sendAIRecommendMessage (slice (-8) updated) with
       | Normal response =>
           match Response.choices response with
           | first :: _ =>
               {| messages :=
                    updated ++ [assistantMessageOf response first later];
                  inputMessage := []; isLoading := false; error := None |}
           | [] =>
               {| messages := messages (pending w) ++ [userMessage];
                  inputMessage := []; isLoading := false;
                  error := Some (bannerOf
                                   (ErrorObject undefined_property_message)) |}
           end
       | Abrupt e =>
           {| messages := messages (pending w) ++ [userMessage];
              inputMessage := []; isLoading := false;
              error := Some (bannerOf e) |}
       end.
Proof.
  intros Hb Hl. cbv zeta.
  isolate (dispatch later (sendMessage content now later) w).
  start_send Hb Hl.
  destruct (sendAIRecommendMessage _) as [response | thrown]; fields.
  - destruct (Response.choices response) as [| first rest]; fields.
    + unfold bannerOf.
      destruct (JSON_parse_error undefined_property_message); fields;
        step_render; intros ->; finish.
    + step_render. intros ->. finish.
  - unfold bannerOf.
    destruct thrown as [message | | |];
      [destruct (JSON_parse_error message) |..]; fields;
      step_render; intros ->; finish.
Qed.

(** A send stopped by its guard is only a render. *)
Lemma send_guarded (content : JsString) (now later : Z) (w : World) :
  blank content = true \/ isLoading (state w) = true ->
  dispatch later (sendMessage content now later) w = fst (render later w).
Proof.
  intros H. unfold dispatch, sendMessage.
  unfold bind at 1. unfold get at 1. rewrite trim_truthy.
  destruct H as [-> | ->]; rewrite ?orb_true_r; reflexivity.
Qed.

(** An event ends with a render of what its handler queued. *)
Lemma dispatch_frame (t : Z) (h : M World unit) (w : World) :
  let w' := dispatch t h w in
  state w' = pending (fst (h w)) /\ pending w' = state w'
  /\ messagesSet w' = false /\ outbox w' = outbox (fst (h w)).
Proof.
  cbv zeta. unfold dispatch. destruct (h w) as [w1 r]. fields.
  pose proof (render_frame t w1) as (Hs & Hp & Hm & Ho & _).
  rewrite Hs, Hp, Hm, Ho. auto.
Qed.

(** Every sending event is a [sendMessage] of some text, or nothing. *)
Lemma step_send_form (e : Event) (w : World) :
  sends e = true ->
  step e w
  = match text_sent e (state w) with
    | Some (content, now) =>
        dispatch (time_of e) (sendMessage content now (time_of e)) w
    | None => fst (render (time_of e) w)
    end.
Proof.
  destruct e as [now later | key shiftKey now later | preset now later
                 | t | value t | t]; try discriminate; intros _;
    try reflexivity.
  unfold step, handler, time_of, handleKeyDown, dispatch, text_sent.
  unfold bind at 1. unfold get at 1.
  destruct (bool_decide (key = lit "Enter") && negb shiftKey); reflexivity.
Qed.

(** What the three events that do not send leave as state. *)
Lemma step_quiet_state (e : Event) (w : World) :
  sends e = false ->
  let w' := step e w in
  outbox w' = outbox w /\ pending w' = state w' /\ messagesSet w' = false
  /\ state w'
     = match e with
       | ResetClick t =>
           {| messages := [welcomeMessage t]; inputMessage := [];
              isLoading := isLoading (pending w); error := None |}
       | InputChange value _ =>
           {| messages := messages (pending w); inputMessage := value;
              isLoading := isLoading (pending w); error := error (pending w) |}
       | _ =>
           {| messages := messages (pending w);
              inputMessage := inputMessage (pending w);
              isLoading := isLoading (pending w); error := None |}
       end.
Proof.
  intros He. cbv zeta. unfold step.
  pose proof (dispatch_frame (time_of e) (handler e) w) as (Hs & Hp & Hm & Ho).
  rewrite Hs, Hp, Hm, Ho. rewrite Hs.
  destruct e as [now later | key shiftKey now later | preset now later
                 | t | value t | t]; try discriminate; cbn [handler].
  - run. destruct (denied (localStorage w)); fields; auto.
  - run. auto.
  - run. auto.
Qed.

(** After an event nothing is queued and the input is unlocked, provided
    it was so before. *)
Lemma step_keeps_unlocked (e : Event) (w : World) :
  rendered w -> isLoading (state w) = false ->
  rendered (step e w) /\ isLoading (state (step e w)) = false.
Proof.
  intros [Hp Hm] Hl. unfold rendered.
  destruct (sends e) eqn:He.
  - rewrite (step_send_form e w He).
    destruct (text_sent e (state w)) as [[content now] |].
    + destruct (blank content) eqn:Hb.
      * rewrite send_guarded by auto.
        pose proof (render_frame (time_of e) w) as (Hs & Hq & Hn & _).
        rewrite Hs, Hq, Hn, Hp. auto.
      * pose proof (send_outcome content now (time_of e) w Hb Hl)
          as (_ & Hq & Hn & Hs).
        cbv zeta in *. rewrite Hq, Hn, Hs.
        repeat split_match; auto.
    + pose proof (render_frame (time_of e) w) as (Hs & Hq & Hn & _).
      rewrite Hs, Hq, Hn, Hp. auto.
  - pose proof (step_quiet_state e w He) as (_ & Hq & Hn & Hs).
    cbv zeta in *. rewrite Hq, Hn, Hs, Hp.
    destruct e; try discriminate; fields; auto.
Qed.

Lemma mount_unlocked (t : Z) (ls : LocalStorage) :
  let w := fst (mount t (initialWorld ls)) in
  rendered w /\ isLoading (state w) = false.
Proof.
  cbv zeta. unfold rendered. isolate (mount t (initialWorld ls)). run.
  repeat split_match; intros ->; fields; auto.
Qed.

(** A property kept by every event holds throughout a session. *)
Lemma session_induction (P : World -> Prop) (t0 : Z) (ls : LocalStorage) :
  P (fst (mount t0 (initialWorld ls))) ->
  (forall e w, P w -> P (step e w)) ->
  forall events, P (session t0 ls events).
Proof.
  intros H0 Hstep events. unfold session.
  generalize dependent (fst (mount t0 (initialWorld ls))).
  induction events as [| e events IH]; intros w Hw; simpl; auto.
Qed.

Lemma session_unlocked (t0 : Z) (ls : LocalStorage) (events : list Event) :
  rendered (session t0 ls events)
  /\ isLoading (state (session t0 ls events)) = false.
Proof.
  apply (session_induction
           (fun w => rendered w /\ isLoading (state w) = false)).
  - apply mount_unlocked.
  - intros e w [Hr Hl]. apply step_keeps_unlocked; assumption.
Qed.

(** X1. Where every event is handled to its end before the next one
    arrives, the modal is never left locked: after mounting and any
    events, whatever the storage and the remote end did, [isLoading] is
    false again (the [finally] of [sendMessage]), no state update is left
    unrendered, and the send button is disabled exactly when the input is
    blank. *)
Theorem session_never_locked (t0 : Z) (ls : LocalStorage) (events : list Event) :
  let w := session t0 ls events in
  isLoading (state w) = false /\ pending w = state w /\ messagesSet w = false
  /\ submitDisabled (state w) = blank (inputMessage (state w)).
Proof.
  cbv zeta.
  destruct (session_unlocked t0 ls events) as [[Hp Hm] Hl].
  repeat apply conj; auto.
  unfold submitDisabled. rewrite trim_truthy, negb_involutive, Hl.
  apply orb_false_r.
Qed.

(** X2. Where the browser accepts the writes, the storage follows the
    conversation through a whole session: after mounting and any events
    the key [ai-recommend-messages] holds the serialisation of the whole
    transcript on display, with the time of some save. *)
Theorem session_synced (t0 : Z) (ls : LocalStorage) (events : list Event) :
  denied ls = false -> full ls = false ->
  synced (session t0 ls events).
Proof.
  intros Hd Hf.
  enough (H : rendered (session t0 ls events)
              /\ healthy (session t0 ls events)
              /\ synced (session t0 ls events)) by tauto.
  apply (session_induction (fun w => rendered w /\ healthy w /\ synced w)).
  - apply mount_synced; assumption.
  - intros e w (Hr & Hh & Hs). apply step_keeps_synced; assumption.
Qed.

Lemma restoreTimestamp_stamped (t : Z) (msgs : list ExtendedAIMessage) :
  truthy (toISOString t) = true ->
  stamped (List.map (restoreTimestamp t) msgs).
Proof.
  intros Hc. unfold stamped.
  induction msgs as [| m0 msgs IH]; simpl; constructor; [| exact IH].
  unfold restoreTimestamp, or_else. simpl.
  destruct (timestamp m0) as [ts |]; [| exact Hc].
  destruct (truthy ts) eqn:E; [exact E | exact Hc].
Qed.

Lemma mount_stamped (t : Z) (ls : LocalStorage) :
  truthy (toISOString t) = true ->
  stamped (messages (state (fst (mount t (initialWorld ls))))).
Proof.
  intros Hc. isolate (mount t (initialWorld ls)). run.
  repeat split_match; intros ->; fields;
    try apply restoreTimestamp_stamped; auto;
    try (constructor; [exact Hc | constructor]); constructor.
Qed.

Lemma step_keeps_stamped (e : Event) (w : World) :
  (forall t, truthy (toISOString t) = true) ->
  rendered w -> isLoading (state w) = false ->
  stamped (messages (state w)) -> stamped (messages (state (step e w))).
Proof.
  intros Hc [Hp Hm] Hl Hst.
  destruct (sends e) eqn:He.
  - rewrite (step_send_form e w He).
    destruct (text_sent e (state w)) as [[content now] |].
    + destruct (blank content) eqn:Hb.
      * rewrite send_guarded by auto.
        pose proof (render_frame (time_of e) w) as (Hs & _).
        rewrite Hs, Hp. exact Hst.
      * pose proof (send_outcome content now (time_of e) w Hb Hl)
          as (_ & _ & _ & Hs).
        cbv zeta in *. rewrite Hs, Hp. unfold stamped in *.
        repeat split_match; rewrite ?Forall_app; repeat split; auto;
          repeat constructor; simpl; apply Hc.
    + pose proof (render_frame (time_of e) w) as (Hs & _).
      rewrite Hs, Hp. exact Hst.
  - pose proof (step_quiet_state e w He) as (_ & _ & _ & Hs).
    cbv zeta in *. rewrite Hs, Hp.
    destruct e; try discriminate; fields; auto.
    constructor; [apply Hc | constructor].
Qed.

(** X3. Every message of the transcript carries a timestamp, throughout a
    session and whatever the cache held: messages read without one get the
    load time, and every message the modal creates is stamped (the clock
    never prints an empty text). *)
Theorem session_stamped (t0 : Z) (ls : LocalStorage) (events : list Event) :
  (forall t, truthy (toISOString t) = true) ->
  stamped (messages (state (session t0 ls events))).
Proof.
  intros Hc.
  enough (H : (rendered (session t0 ls events)
               /\ isLoading (state (session t0 ls events)) = false)
              /\ stamped (messages (state (session t0 ls events)))) by tauto.
  apply (session_induction
           (fun w => (rendered w /\ isLoading (state w) = false)
                     /\ stamped (messages (state w)))).
  - split; [apply mount_unlocked | apply mount_stamped, Hc].
  - intros e w [[Hr Hl] Hs]. split.
    + apply step_keeps_unlocked; assumption.
    + apply step_keeps_stamped; assumption.
Qed.

Lemma slice_request_ok (content : JsString) (now : Z)
    (msgs : list ExtendedAIMessage) :
  blank content = false ->
  request_ok (slice (-8) (msgs ++ [userMessageOf content now])).
Proof.
  intros Hb. change (-8) with (- Z.of_nat 8).
  rewrite slice_negative by lia. unfold request_ok. split.
  - rewrite last_n_length, length_app. cbn [length]. lia.
  - exists (userMessageOf content now). split.
    + unfold last_n. rewrite length_app. simpl length.
      destruct (decide (length msgs + 1 - 8 <= length msgs)%nat) as [Hle | Hgt];
        [| lia].
      rewrite drop_app_le by lia. apply last_snoc.
    + simpl. repeat split.
      * apply trim_not_blank, Hb.
      * apply trim_idempotent.
Qed.

Lemma step_outbox (e : Event) (w : World) :
  rendered w -> isLoading (state w) = false ->
  outbox (step e w) = outbox w
  \/ exists content now,
       blank content = false
       /\ outbox (step e w)
          = outbox w
            ++ [slice (-8) (messages (state w) ++ [userMessageOf content now])].
Proof.
  intros [Hp Hm] Hl.
  destruct (sends e) eqn:He.
  - rewrite (step_send_form e w He).
    destruct (text_sent e (state w)) as [[content now] |].
    + destruct (blank content) eqn:Hb.
      * left. rewrite send_guarded by auto.
        apply (render_frame (time_of e) w).
      * right. exists content, now. split; [exact Hb |].
        apply (send_outcome content now (time_of e) w Hb Hl).
    + left. apply (render_frame (time_of e) w).
  - left. apply (step_quiet_state e w He).
Qed.

(** X4. Every request that leaves during a session carries between one
    and eight messages and ends with a user message whose text is not
    blank and is trimmed: no call is made for blank input, and the history
    is cut to the last eight. *)
Theorem session_requests_ok (t0 : Z) (ls : LocalStorage) (events : list Event) :
  Forall request_ok (outbox (session t0 ls events)).
Proof.
  enough (H : (rendered (session t0 ls events)
               /\ isLoading (state (session t0 ls events)) = false)
              /\ Forall request_ok (outbox (session t0 ls events))) by tauto.
  apply (session_induction
           (fun w => (rendered w /\ isLoading (state w) = false)
                     /\ Forall request_ok (outbox w))).
  - split; [apply mount_unlocked |].
    isolate (mount t0 (initialWorld ls)). run.
    repeat split_match; intros ->; fields; constructor.
  - intros e w [[Hr Hl] Ho]. split.
    + apply step_keeps_unlocked; assumption.
    + destruct (step_outbox e w Hr Hl) as [-> | (content & now & Hb & ->)];
        [exact Ho |].
      apply Forall_app. split; [exact Ho |].
      constructor; [| constructor]. apply slice_request_ok, Hb.
Qed.

(** X5. Only a reset shortens the conversation. Any other event of a
    session either leaves transcript and outbox as they are, or sends one
    request and appends one user message followed by at most one assistant
    message. *)
Theorem step_extends_transcript (t0 : Z) (ls : LocalStorage)
    (events : list Event) (e : Event) :
  (forall t, e <> ResetClick t) ->
  let w := session t0 ls events in
  let w' := step e w in
  (messages (state w') = messages (state w) /\ outbox w' = outbox w)
  \/ exists userMessage rest request,
       messages (state w') = messages (state w) ++ userMessage :: rest
       /\ role userMessage = user
       /\ (length rest <= 1)%nat
       /\ Forall (fun msg => role msg = assistant) rest
       /\ outbox w' = outbox w ++ [request].
Proof.
  intros Hne. cbv zeta.
  destruct (session_unlocked t0 ls events) as [[Hp Hm] Hl].
  set (w := session t0 ls events) in *.
  destruct (sends e) eqn:He.
  - rewrite (step_send_form e w He).
    destruct (text_sent e (state w)) as [[content now] |].
    + destruct (blank content) eqn:Hb.
      * left. rewrite send_guarded by auto.
        pose proof (render_frame (time_of e) w) as (Hs & _ & _ & Ho & _).
        rewrite Hs, Ho, Hp. auto.
      * right.
        pose proof (send_outcome content now (time_of e) w Hb Hl)
          as (Ho & _ & _ & Hs).
        cbv zeta in *. rewrite Hs, Ho, Hp.
        exists (userMessageOf content now).
        destruct (sendAIRecommendMessage _) as [response | thrown].
        -- destruct (Response.choices response) as [| first rest]; fields.
           ++ exists [], (slice (-8) (messages (state w)
                                       ++ [userMessageOf content now])).
              repeat split; auto.
           ++ exists [assistantMessageOf response first (time_of e)],
                (slice (-8) (messages (state w)
                             ++ [userMessageOf content now])).
              rewrite <- app_assoc. repeat split; auto.
        -- exists [], (slice (-8) (messages (state w)
                                    ++ [userMessageOf content now])).
           fields. repeat split; auto.
    + left. pose proof (render_frame (time_of e) w) as (Hs & _ & _ & Ho & _).
      rewrite Hs, Ho, Hp. auto.
  - left. pose proof (step_quiet_state e w He) as (Ho & _ & _ & Hs).
    cbv zeta in *. rewrite Hs, Ho, Hp.
    destruct e as [| | | t | |]; try discriminate; fields; auto.
    exfalso. exact (Hne t eq_refl).
Qed.

Lemma step_keeps_nonempty (e : Event) (w : World) :
  rendered w -> isLoading (state w) = false ->
  showResetButton (state w) = true ->
  showResetButton (state (step e w)) = true.
Proof.
  intros [Hp Hm] Hl Hne. unfold showResetButton in *.
  destruct (sends e) eqn:He.
  - rewrite (step_send_form e w He).
    destruct (text_sent e (state w)) as [[content now] |].
    + destruct (blank content) eqn:Hb.
      * rewrite send_guarded by auto.
        pose proof (render_frame (time_of e) w) as (Hs & _).
        rewrite Hs, Hp. exact Hne.
      * pose proof (send_outcome content now (time_of e) w Hb Hl)
          as (_ & _ & _ & Hs).
        cbv zeta in *. rewrite Hs, Hp.
        repeat split_match; cbn [messages]; rewrite !length_app;
          cbn [length]; apply Nat.ltb_lt; lia.
    + pose proof (render_frame (time_of e) w) as (Hs & _).
      rewrite Hs, Hp. exact Hne.
  - pose proof (step_quiet_state e w He) as (_ & _ & _ & Hs).
    cbv zeta in *. rewrite Hs, Hp.
    destruct e; try discriminate; fields; auto.
Qed.

(** X25. The conversation is never emptied: once the transcript holds a
    message, and so the reset button shows, it holds one for the rest of
    the session, a reset included (it puts the welcome message back). *)
Theorem reset_button_stays (t0 : Z) (ls : LocalStorage)
    (events more : list Event) :
  showResetButton (state (session t0 ls events)) = true ->
  showResetButton (state (session t0 ls (events ++ more))) = true.
Proof.
  intros Hne. unfold session at 1. rewrite fold_left_app.
  fold (session t0 ls events).
  pose proof (session_unlocked t0 ls events) as Hu.
  revert Hu Hne. generalize (session t0 ls events).
  induction more as [| e more IH]; intros w [Hr Hl] Hne; cbn [fold_left].
  - exact Hne.
  - apply IH.
    + apply step_keeps_unlocked; assumption.
    + apply step_keeps_nonempty; assumption.
Qed.

(** X6. The conversation does not depend on the storage once the modal is
    mounted: with any other storage in its place (refusing, full, holding
    other entries) an event leaves the same state on display and the same
    requests. *)
Theorem step_ignores_storage (e : Event) (w : World) (ls : LocalStorage) :
  let w2 := with_storage (fun _ => ls) w in
  state (step e w2) = state (step e w)
  /\ outbox (step e w2) = outbox (step e w).
Proof.
  cbv zeta. set (w2 := with_storage (fun _ => ls) w).
  assert (Hst : state w2 = state w) by reflexivity.
  assert (Hpe : pending w2 = pending w) by reflexivity.
  assert (Hou : outbox w2 = outbox w) by reflexivity.
  clearbody w2.
  destruct (sends e) eqn:He.
  - rewrite !(step_send_form e _ He), Hst.
    destruct (text_sent e (state w)) as [[content now] |].
    + destruct (blank content) eqn:Hb; [| destruct (isLoading (state w)) eqn:Hl].
      * rewrite !send_guarded by auto.
        pose proof (render_frame (time_of e) w) as (-> & _ & _ & -> & _).
        pose proof (render_frame (time_of e) w2) as (-> & _ & _ & -> & _).
        auto.
      * rewrite !send_guarded by (rewrite ?Hst; auto).
        pose proof (render_frame (time_of e) w) as (-> & _ & _ & -> & _).
        pose proof (render_frame (time_of e) w2) as (-> & _ & _ & -> & _).
        auto.
      * assert (Hl2 : isLoading (state w2) = false) by (rewrite Hst; exact Hl).
        pose proof (send_outcome content now (time_of e) w Hb Hl)
          as (-> & _ & _ & ->).
        pose proof (send_outcome content now (time_of e) w2 Hb Hl2)
          as (-> & _ & _ & ->).
        rewrite Hst, Hpe, Hou. auto.
    + pose proof (render_frame (time_of e) w) as (-> & _ & _ & -> & _).
      pose proof (render_frame (time_of e) w2) as (-> & _ & _ & -> & _).
      auto.
  - pose proof (step_quiet_state e w He) as (-> & _ & _ & ->).
    pose proof (step_quiet_state e w2 He) as (-> & _ & _ & ->).
    rewrite Hpe, Hou. auto.
Qed.


(** ** Other entries of the storage *)

Lemma same_elsewhere_refl (w : World) : same_elsewhere w w.
Proof. unfold same_elsewhere. auto. Qed.

Lemma same_elsewhere_trans (w1 w2 w3 : World) :
  same_elsewhere w1 w2 -> same_elsewhere w2 w3 -> same_elsewhere w1 w3.
Proof.
  intros (Hi & Hd & Hf) (Hi' & Hd' & Hf'). unfold same_elsewhere.
  repeat split; try congruence.
  intros key Hk. rewrite Hi', Hi; auto.
Qed.

Lemma quiet_ret {A : Type} (a : A) : quiet (ret a).
Proof. intros w. apply same_elsewhere_refl. Qed.

Lemma quiet_throw {A : Type} (e : Thrown) : quiet (throw (A := A) e).
Proof. intros w. apply same_elsewhere_refl. Qed.

Lemma quiet_get : quiet get.
Proof. intros w. apply same_elsewhere_refl. Qed.

Lemma quiet_settle {A : Type} (p : Completion A) : quiet (settle p).
Proof. intros w. apply same_elsewhere_refl. Qed.

Lemma quiet_modify (f : World -> World) :
  (forall w, localStorage (f w) = localStorage w) -> quiet (modify f).
Proof.
  intros Hf w. unfold modify, same_elsewhere. simpl. rewrite Hf. auto.
Qed.

Lemma quiet_bind {A B : Type} (c : M World A) (k : A -> M World B) :
  quiet c -> (forall a, quiet (k a)) -> quiet (bind c k).
Proof.
  intros Hc Hk w. unfold bind. specialize (Hc w).
  destruct (c w) as [w1 [a | e]]; simpl in *; [| exact Hc].
  eapply same_elsewhere_trans; [exact Hc | apply Hk].
Qed.

Lemma quiet_try_catch {A : Type} (body : M World A)
    (handler : Thrown -> M World A) :
  quiet body -> (forall e, quiet (handler e)) -> quiet (try_catch body handler).
Proof.
  intros Hc Hk w. unfold try_catch. specialize (Hc w).
  destruct (body w) as [w1 [a | e]]; simpl in *; [exact Hc |].
  eapply same_elsewhere_trans; [exact Hc | apply Hk].
Qed.

Lemma quiet_try_finally {A : Type} (body : M World A) (final : M World unit) :
  quiet body -> quiet final -> quiet (try_finally body final).
Proof.
  intros Hc Hk w. unfold try_finally. specialize (Hc w).
  destruct (body w) as [w1 r]. specialize (Hk w1).
  destruct (final w1) as [w2 [[] | e]]; simpl in *;
    eapply same_elsewhere_trans; eauto.
Qed.

Lemma quiet_getItem (key : JsString) : quiet (getItem key).
Proof.
  intros w. unfold getItem, same_elsewhere. run.
  destruct (denied (localStorage w)); fields; auto.
Qed.

Lemma quiet_setItem (value : JsString) : quiet (setItem STORAGE_KEY value).
Proof.
  intros w. unfold setItem, same_elsewhere. run.
  destruct (denied (localStorage w)), (full (localStorage w)); fields;
    repeat split; auto.
  intros key Hk. apply lookup_insert_ne. congruence.
Qed.

Lemma quiet_removeItem : quiet (removeItem STORAGE_KEY).
Proof.
  intros w. unfold removeItem, same_elsewhere. run.
  destruct (denied (localStorage w)); fields; repeat split; auto.
  intros key Hk. apply lookup_delete_ne. congruence.
Qed.

(* Walks through a handler, one operation at a time. *)
Ltac quiet_steps :=
  repeat first
    [ apply quiet_ret | apply quiet_throw | apply quiet_get
    | apply quiet_settle | apply quiet_getItem | apply quiet_setItem
    | apply quiet_removeItem
    | apply quiet_modify; intros ?; reflexivity
    | apply quiet_bind; [| intros ?]
    | apply quiet_try_catch; [| intros ?]
    | apply quiet_try_finally
    | match goal with
      | |- quiet (match ?x with _ => _ end) => destruct x
      | |- quiet (let _ := _ in _) => cbv zeta
      end ].

Lemma quiet_saveEffect (t : Z) : quiet (saveEffect t).
Proof. unfold saveEffect, console_error. quiet_steps. Qed.

Lemma quiet_render (t : Z) : quiet (render t).
Proof.
  unfold render. quiet_steps.
Qed.

Lemma quiet_loadEffect (t : Z) : quiet (loadEffect t).
Proof. unfold loadEffect, setMessages, console_error. quiet_steps. Qed.

Lemma quiet_sendMessage (content : JsString) (now later : Z) :
  quiet (sendMessage content now later).
Proof.
  unfold sendMessage, await, setMessages, setInputMessage, setIsLoading,
    setError, console_error.
  quiet_steps; try apply quiet_render.
  all: intros w; unfold call_sendAIRecommendMessage, same_elsewhere; simpl; auto.
Qed.

Lemma quiet_handler (e : Event) : quiet (handler e).
Proof.
  destruct e; cbn [handler];
    unfold handleSubmit, handleKeyDown, handlePresetClick, resetChat,
      setMessages, setInputMessage, setError, console_error;
    quiet_steps; try apply quiet_sendMessage.
Qed.

Lemma step_elsewhere (e : Event) (w : World) : same_elsewhere w (step e w).
Proof.
  unfold step, dispatch. pose proof (quiet_handler e w) as Hh.
  destruct (handler e w) as [w1 r]. simpl in Hh.
  eapply same_elsewhere_trans; [exact Hh | apply quiet_render].
Qed.

Lemma mount_elsewhere (t : Z) (ls : LocalStorage) :
  same_elsewhere (initialWorld ls) (fst (mount t (initialWorld ls))).
Proof.
  assert (H : quiet (mount t)).
  { unfold mount. quiet_steps. }
  apply H.
Qed.

(** X7. The modal touches one key only: whatever happens in a session,
    every other entry of the storage is as it was before mounting. *)
Theorem session_keeps_other_entries (t0 : Z) (ls : LocalStorage)
    (events : list Event) (key : JsString) :
  key <> STORAGE_KEY ->
  items (localStorage (session t0 ls events)) !! key = items ls !! key.
Proof.
  intros Hk.
  enough (H : same_elsewhere (initialWorld ls) (session t0 ls events)).
  { destruct H as (Hi & _). exact (Hi key Hk). }
  apply (session_induction (fun w => same_elsewhere (initialWorld ls) w)).
  - apply mount_elsewhere.
  - intros e w Hw. eapply same_elsewhere_trans; [exact Hw |].
    apply step_elsewhere.
Qed.

(** ** Reset, presets, keyboard, reload *)

(** X8. A reset shows the welcome message alone, clears the banner and
    the input, and calls [removeItem] and then, from the save effect of
    the render that follows, [setItem] with a one-message cache: where the
    storage works the key is not left empty but holds the fresh welcome
    message. *)
Theorem resetChat_rewrites_cache (t : Z) (w : World) :
  let w' := dispatch t (resetChat t) w in
  let text := JSON_stringify {| Cache.messages := [welcomeMessage t];
                                Cache.timestamp := t |} in
  messages (state w') = [welcomeMessage t]
  /\ error (state w') = None
  /\ inputMessage (state w') = []
  /\ calls (localStorage w')
     = calls (localStorage w)
       ++ [RemoveItem STORAGE_KEY; SetItem STORAGE_KEY text]
  /\ (healthy w -> items (localStorage w') !! STORAGE_KEY = Some text).
Proof.
  cbv zeta. isolate (dispatch t (resetChat t) w). unfold dispatch. run.
  destruct (denied (localStorage w)) eqn:Hd; fields.
  - intros ->. fields. rewrite <- app_assoc. repeat split; auto.
    intros [Hd' _]. congruence.
  - destruct (full (localStorage w)) eqn:Hf; fields; intros ->; fields;
      rewrite <- app_assoc; repeat split; auto.
    + intros [_ Hf']. congruence.
    + intros _. apply lookup_insert_eq.
Qed.

(** X9. Mounting the modal restarts the thirty minutes: a cache still
    fresh is written back by the first save effect with the time of the
    mount as its timestamp. *)
Theorem mount_restarts_window (t : Z) (ls : LocalStorage)
    (text : JsString) (cache : Cache.t) :
  denied ls = false -> full ls = false ->
  items ls !! STORAGE_KEY = Some text -> truthy text = true ->
  JSON_parse text = Some cache ->
  t - Cache.timestamp cache < 1800 * 1000 ->
  items (localStorage (fst (mount t (initialWorld ls)))) !! STORAGE_KEY
  = Some (JSON_stringify
            {| Cache.messages :=
                 List.map (restoreTimestamp t) (Cache.messages cache);
               Cache.timestamp := t |}).
Proof.
  intros Hd Hf Hget Htruthy Hparse Hfresh.
  assert (Hlt : (t - Cache.timestamp cache <? 30 * 60 * 1000) = true)
    by (apply Z.ltb_lt; lia).
  run. rewrite Hd. fields. rewrite Hget, Htruthy, Hparse, Hlt. fields.
  rewrite Hf. fields. apply lookup_insert_eq.
Qed.

Lemma includes_welcome : includes WELCOME_CONTENT ASSISTANT_NAME = true.
Proof. vm_compute. reflexivity. Qed.

(** X10. The preset questions are offered right after a reset, where the
    welcome message stands alone, and no longer once a message was sent,
    whether the call succeeded or failed. *)
Theorem presets_until_first_message (content : JsString) (now later : Z)
    (t : Z) (w : World) :
  showPresets (state (dispatch t (resetChat t) w)) = true
  /\ (blank content = false -> isLoading (state w) = false ->
      showPresets (state (dispatch later (sendMessage content now later) w))
      = false).
Proof.
  split.
  - pose proof (step_quiet_state (ResetClick t) w eq_refl) as (_ & _ & _ & Hs).
    cbv zeta in Hs. unfold step in Hs. cbn [handler time_of] in Hs.
    rewrite Hs. unfold showPresets.
    cbn [messages length forallb welcomeMessage Chat.role Chat.content].
    rewrite includes_welcome. reflexivity.
  - intros Hb Hl.
    pose proof (send_outcome content now later w Hb Hl) as (_ & _ & _ & Hs).
    cbv zeta in Hs. rewrite Hs. unfold showPresets.
    apply andb_false_intro2.
    repeat split_match; rewrite ?forallb_app;
      cbn [forallb userMessageOf Chat.role];
      rewrite ?andb_false_r; reflexivity.
Qed.

(** X11. Enter without Shift does what the send button does, and sends
    one request made of the last eight messages, when the button is
    enabled; with Shift, with another key, or with the button disabled
    (blank input or a call in flight) a key press changes neither the
    state nor the outbox. *)
Theorem keyDown_sends_like_button (key : JsString) (shiftKey : bool)
    (now later : Z) (w : World) :
  rendered w ->
  let w' := step (KeyDown key shiftKey now later) w in
  if bool_decide (key = lit "Enter") && negb shiftKey
     && negb (submitDisabled (state w))
  then w' = step (Submit now later) w
       /\ outbox w'
          = outbox w
            ++ [last_n 8 (messages (state w)
                          ++ [userMessageOf (inputMessage (state w)) now])]
  else state w' = state w /\ outbox w' = outbox w.
Proof.
  intros [Hp Hm]. cbv zeta.
  rewrite (step_send_form (KeyDown key shiftKey now later) w eq_refl).
  cbn [text_sent time_of].
  destruct (bool_decide (key = lit "Enter") && negb shiftKey); cbn [andb].
  - unfold submitDisabled. rewrite trim_truthy, negb_involutive.
    destruct (blank (inputMessage (state w))) eqn:Hb; cbn [orb negb].
    + rewrite send_guarded by auto.
      pose proof (render_frame later w) as (-> & _ & _ & -> & _). auto.
    + destruct (isLoading (state w)) eqn:Hl; cbn [negb].
      * rewrite send_guarded by auto.
        pose proof (render_frame later w) as (-> & _ & _ & -> & _). auto.
      * split; [reflexivity |].
        pose proof (send_outcome (inputMessage (state w)) now later w Hb Hl)
          as (Ho & _).
        cbv zeta in Ho. rewrite Ho.
        change (-8) with (- Z.of_nat 8). rewrite slice_negative by lia.
        reflexivity.
  - pose proof (render_frame later w) as (-> & _ & _ & -> & _). auto.
Qed.

Lemma mount_restores_stamped (t : Z) (ls : LocalStorage)
    (text : JsString) (cache : Cache.t) :
  denied ls = false ->
  items ls !! STORAGE_KEY = Some text -> truthy text = true ->
  JSON_parse text = Some cache ->
  t - Cache.timestamp cache < 1800 * 1000 ->
  stamped (Cache.messages cache) ->
  messages (state (fst (mount t (initialWorld ls)))) = Cache.messages cache.
Proof.
  intros Hd Hget Htruthy Hparse Hfresh Hall.
  assert (Hlt : (t - Cache.timestamp cache <? 30 * 60 * 1000) = true)
    by (apply Z.ltb_lt; lia).
  assert (Hm : messages (state (fst (mount t (initialWorld ls))))
               = List.map (restoreTimestamp t) (Cache.messages cache)).
  { run. rewrite Hd. fields. rewrite Hget, Htruthy, Hparse, Hlt.
    fields. destruct (full ls); reflexivity. }
  rewrite Hm. clear Hm.
  induction Hall as [| msg l Hmsg _ IH]; [reflexivity |].
  simpl. rewrite IH. f_equal.
  destruct msg as [r c [ts |] recs]; simpl in *; [| discriminate].
  unfold restoreTimestamp, or_else. simpl. rewrite Hmsg. reflexivity.
Qed.

(** X12. Mounting the modal again within thirty minutes brings the
    conversation back: where the storage works and [JSON.parse] inverts
    [JSON.stringify], mounting on the storage a session left, less than
    thirty minutes after the cache was written, shows the transcript the
    session ended with. *)
Theorem reload_restores_transcript (t0 : Z) (ls : LocalStorage)
    (events : list Event) (t' : Z) (text : JsString) (cache : Cache.t) :
  denied ls = false -> full ls = false ->
  (forall t, truthy (toISOString t) = true) ->
  (forall c, JSON_parse (JSON_stringify c) = Some c) ->
  (forall c, truthy (JSON_stringify c) = true) ->
  let w := session t0 ls events in
  items (localStorage w) !! STORAGE_KEY = Some text ->
  JSON_parse text = Some cache ->
  t' - Cache.timestamp cache < 1800 * 1000 ->
  messages (state (fst (mount t' (initialWorld (localStorage w)))))
  = messages (state w).
Proof.
  intros Hd Hf Hclock Hround Htext. cbv zeta. intros Hget Hparse Hfresh.
  assert (H : ((rendered (session t0 ls events)
                /\ isLoading (state (session t0 ls events)) = false)
               /\ stamped (messages (state (session t0 ls events))))
              /\ (rendered (session t0 ls events)
                  /\ healthy (session t0 ls events)
                  /\ synced (session t0 ls events))).
  { apply (session_induction
             (fun w => ((rendered w /\ isLoading (state w) = false)
                        /\ stamped (messages (state w)))
                       /\ (rendered w /\ healthy w /\ synced w))).
    - repeat split; try apply mount_unlocked; try apply mount_stamped, Hclock;
        apply mount_synced; assumption.
    - intros e w [[[Hr Hl] Hs] (_ & Hh & Hy)]. split; [split |].
      + apply step_keeps_unlocked; assumption.
      + apply step_keeps_stamped; assumption.
      + apply step_keeps_synced; assumption. }
  destruct H as [[_ Hst] (_ & [Hd' _] & (t1 & Ht1))].
  rewrite Hget in Ht1. injection Ht1 as ->.
  rewrite Hround in Hparse. injection Hparse as <-.
  apply (mount_restores_stamped t' _ _ _ Hd' Hget (Htext _) (Hround _));
    assumption.
Qed.

End Facts.

(** ** The theorems at sample inputs *)

Lemma sendMessage_noop_witness :
  blank (lit "   ") = true
  /\ sendMessage (rt := Samples.okRuntime)
       (lit "   ") 10 20 (initialWorld Samples.emptyStorage)
     = (initialWorld Samples.emptyStorage, Normal tt).
Proof.
  split; [reflexivity |].
  apply (@sendMessage_noop Samples.okRuntime).
  left. reflexivity.
Defined.

Lemma sendMessage_request_witness :
  blank (lit "sci-fi") = false
  /\ outbox (fst (sendMessage (rt := Samples.okRuntime)
                    (lit "sci-fi") 10 20 (initialWorld Samples.emptyStorage)))
     = [[userMessageOf (rt := Samples.okRuntime) (lit "sci-fi") 10]].
Proof.
  split; [reflexivity |].
  exact (proj1 (@sendMessage_request Samples.okRuntime
                  (lit "sci-fi") 10 20 (initialWorld Samples.emptyStorage)
                  eq_refl eq_refl)).
Defined.

Lemma sendMessage_failure_witness :
  messages (state (dispatch (rt := Samples.offlineRuntime) 20
                     (sendMessage (rt := Samples.offlineRuntime)
                        (lit "sci-fi") 10 20)
                     (initialWorld Samples.emptyStorage)))
  = [userMessageOf (rt := Samples.offlineRuntime) (lit "sci-fi") 10]
  /\ error (state (dispatch (rt := Samples.offlineRuntime) 20
                     (sendMessage (rt := Samples.offlineRuntime)
                        (lit "sci-fi") 10 20)
                     (initialWorld Samples.emptyStorage)))
     = Some {| ErrorBanner.message := lit "Network Error";
               ErrorBanner.details := Some DETAILS_CONTACT_ADMIN |}.
Proof.
  pose proof (@sendMessage_failure Samples.offlineRuntime (lit "sci-fi") 10 20
                (initialWorld Samples.emptyStorage)
                (ErrorObject (lit "Network Error"))
                eq_refl eq_refl eq_refl) as (Hm & He & _).
  split; [exact Hm | exact He].
Defined.

(** C3 as stated fails: the remote end refuses with the JSON body
    [{"error":"Rate limit exceeded"}]; the send fails, and the banner that
    is set has a message and no details. *)
Lemma sendMessage_failure_without_details :
  blank (lit "sci-fi") = false
  /\ failure (rt := Samples.rateLimitedRuntime)
       (sendAIRecommendMessage (Runtime := Samples.rateLimitedRuntime)
          [userMessageOf (rt := Samples.rateLimitedRuntime) (lit "sci-fi") 10])
     = Some (ErrorObject Samples.errorBody)
  /\ error (state (dispatch (rt := Samples.rateLimitedRuntime) 20
                     (sendMessage (rt := Samples.rateLimitedRuntime)
                        (lit "sci-fi") 10 20)
                     (initialWorld Samples.emptyStorage)))
     = Some {| ErrorBanner.message := lit "Rate limit exceeded";
               ErrorBanner.details := None |}.
Proof. repeat apply conj; vm_compute; reflexivity. Qed.

Lemma sendMessage_success_witness :
  List.map Chat.content
    (messages (state (dispatch (rt := Samples.okRuntime) 20
                        (sendMessage (rt := Samples.okRuntime)
                           (lit "sci-fi") 10 20)
                        (initialWorld Samples.emptyStorage))))
  = [lit "sci-fi"; lit "Try Inception."].
Proof.
  pose proof (@sendMessage_success Samples.okRuntime (lit "sci-fi") 10 20
                (initialWorld Samples.emptyStorage) Samples.reply
                {| Response.message :=
                     {| Response.content := lit "Try Inception." |} |} []
                eq_refl eq_refl eq_refl eq_refl) as (Hm & _).
  rewrite Hm. reflexivity.
Defined.

Lemma render_saves_transcript_witness :
  items (localStorage
           (fst (render (rt := Samples.okRuntime) 30
                   (fst (setMessages (fun _ => Samples.cachedTranscript)
                           (initialWorld Samples.emptyStorage))))))
  = {[ STORAGE_KEY := Samples.cacheText ]}.
Proof.
  pose proof (@render_saves_transcript Samples.okRuntime 30
                (fst (setMessages (fun _ => Samples.cachedTranscript)
                        (initialWorld Samples.emptyStorage)))
                eq_refl) as (_ & _ & Hi).
  rewrite (Hi eq_refl eq_refl). reflexivity.
Defined.

Lemma mount_restores_or_welcomes_witness :
  messages (state (fst (mount (rt := Samples.okRuntime) 1740823805000
                          (initialWorld (Samples.storageWith Samples.cacheText)))))
  = Samples.cachedTranscript.
Proof.
  pose proof (@mount_restores_or_welcomes Samples.okRuntime 1740823805000
                (Samples.storageWith Samples.cacheText) eq_refl) as [H _].
  destruct (H Samples.cacheText Samples.cache) as [Hfresh _];
    [vm_compute; reflexivity | reflexivity | vm_compute; reflexivity |].
  destruct Hfresh as [_ Hall]; [vm_compute; reflexivity |].
  apply Hall. repeat constructor.
Defined.

Lemma load_failure_skips_welcome_witness :
  messages (state (fst (mount (rt := Samples.okRuntime) 1740823805000
                          (initialWorld (Samples.storageWith (lit "{oops"))))))
  = [].
Proof.
  refine (proj1 (@load_failure_skips_welcome Samples.okRuntime 1740823805000
                   (Samples.storageWith (lit "{oops")) _)).
  right. exists (lit "{oops").
  repeat apply conj; vm_compute; reflexivity.
Defined.

Lemma session_synced_witness :
  synced (rt := Samples.okRuntime)
    (session (rt := Samples.okRuntime) 0 Samples.emptyStorage Samples.evening).
Proof.
  exact (@session_synced Samples.okRuntime 0 Samples.emptyStorage
           Samples.evening eq_refl eq_refl).
Defined.

Lemma session_stamped_witness :
  stamped (messages (state (session (rt := Samples.okRuntime) 0
                              Samples.emptyStorage Samples.evening))).
Proof.
  exact (@session_stamped Samples.okRuntime 0 Samples.emptyStorage
           Samples.evening (fun _ => eq_refl)).
Defined.

Lemma step_extends_transcript_witness :
  exists userMessage rest request,
    messages (state (step (rt := Samples.okRuntime)
                       (PresetClick Samples.comedyPreset 40 50)
                       (session (rt := Samples.okRuntime) 0
                          Samples.emptyStorage Samples.question)))
    = messages (state (session (rt := Samples.okRuntime) 0
                         Samples.emptyStorage Samples.question))
      ++ userMessage :: rest
    /\ role userMessage = user
    /\ (length rest <= 1)%nat
    /\ Forall (fun msg => role msg = assistant) rest
    /\ outbox (step (rt := Samples.okRuntime)
                 (PresetClick Samples.comedyPreset 40 50)
                 (session (rt := Samples.okRuntime) 0
                    Samples.emptyStorage Samples.question))
       = outbox (session (rt := Samples.okRuntime) 0
                   Samples.emptyStorage Samples.question)
         ++ [request].
Proof.
  destruct (@step_extends_transcript Samples.okRuntime 0 Samples.emptyStorage
              Samples.question (PresetClick Samples.comedyPreset 40 50))
    as [[_ H] | H].
  - intros t E. discriminate E.
  - vm_compute in H. discriminate H.
  - exact H.
Defined.

Lemma session_keeps_other_entries_witness :
  lit "theme" <> STORAGE_KEY
  /\ items (localStorage (session (rt := Samples.okRuntime) 0
                            Samples.sharedStorage Samples.evening))
       !! lit "theme"
     = items Samples.sharedStorage !! lit "theme".
Proof.
  assert (Hk : lit "theme" <> STORAGE_KEY) by (vm_compute; discriminate).
  split; [exact Hk |].
  exact (@session_keeps_other_entries Samples.okRuntime 0 Samples.sharedStorage
           Samples.evening (lit "theme") Hk).
Defined.

Lemma resetChat_rewrites_cache_witness :
  items (localStorage (dispatch (rt := Samples.okRuntime) 30
                         (resetChat (rt := Samples.okRuntime) 30)
                         (session (rt := Samples.okRuntime) 0
                            Samples.emptyStorage Samples.question)))
    !! STORAGE_KEY
  = Some Samples.cacheText.
Proof.
  refine (proj2 (proj2 (proj2 (proj2
            (@resetChat_rewrites_cache Samples.okRuntime 30
               (session (rt := Samples.okRuntime) 0
                  Samples.emptyStorage Samples.question))))) _).
  split; reflexivity.
Defined.

Lemma mount_restarts_window_witness :
  items (localStorage (fst (mount (rt := Samples.okRuntime) 1740823805000
                              (initialWorld
                                 (Samples.storageWith Samples.cacheText)))))
    !! STORAGE_KEY
  = Some (JSON_stringify (Runtime := Samples.okRuntime)
            {| Cache.messages := Samples.cachedTranscript;
               Cache.timestamp := 1740823805000 |}).
Proof.
  refine (@mount_restarts_window Samples.okRuntime 1740823805000
            (Samples.storageWith Samples.cacheText)
            Samples.cacheText Samples.cache
            eq_refl eq_refl _ eq_refl _ _).
  - vm_compute. reflexivity.
  - vm_compute. reflexivity.
  - vm_compute. reflexivity.
Defined.

Lemma presets_until_first_message_witness :
  showPresets (state (dispatch (rt := Samples.offlineRuntime) 20
                        (sendMessage (rt := Samples.offlineRuntime)
                           (lit "sci-fi") 10 20)
                        (initialWorld Samples.emptyStorage)))
  = false.
Proof.
  exact (proj2 (@presets_until_first_message Samples.offlineRuntime
                  (lit "sci-fi") 10 20 0 (initialWorld Samples.emptyStorage))
           eq_refl eq_refl).
Defined.

Lemma keyDown_sends_like_button_witness :
  step (rt := Samples.okRuntime) (KeyDown (lit "Enter") false 10 20)
    (session (rt := Samples.okRuntime) 0 Samples.emptyStorage
       [InputChange (lit "sci-fi") 5])
  = step (rt := Samples.okRuntime) (Submit 10 20)
      (session (rt := Samples.okRuntime) 0 Samples.emptyStorage
         [InputChange (lit "sci-fi") 5]).
Proof.
  assert (Hr : rendered (session (rt := Samples.okRuntime) 0
                           Samples.emptyStorage [InputChange (lit "sci-fi") 5]))
    by (split; vm_compute; reflexivity).
  pose proof (@keyDown_sends_like_button Samples.okRuntime
                (lit "Enter") false 10 20 _ Hr) as H.
  cbv zeta in H.
  assert (Hc : bool_decide (lit "Enter" = lit "Enter") && negb false
               && negb (submitDisabled
                          (state (session (rt := Samples.okRuntime) 0
                                    Samples.emptyStorage
                                    [InputChange (lit "sci-fi") 5])))
               = true)
    by (vm_compute; reflexivity).
  rewrite Hc in H. exact (proj1 H).
Defined.

Lemma reload_restores_transcript_witness :
  messages (state (fst (mount (rt := Samples.codecRuntime) 60000
                          (initialWorld
                             (localStorage
                                (session (rt := Samples.codecRuntime) 0
                                   Samples.emptyStorage Samples.question))))))
  = messages (state (session (rt := Samples.codecRuntime) 0
                       Samples.emptyStorage Samples.question)).
Proof.
  apply (@reload_restores_transcript Samples.codecRuntime 0
           Samples.emptyStorage Samples.question 60000
           (Samples.encodeCache Samples.questionCache) Samples.questionCache
           eq_refl eq_refl (fun _ => eq_refl)
           (fun c => decode_encode c) (fun _ => eq_refl)).
  - refine (proj1 (bool_decide_eq_true _) _). vm_compute. reflexivity.
  - apply decode_encode.
  - apply Z.ltb_lt. vm_compute. reflexivity.
Defined.

Lemma reset_button_stays_witness :
  showResetButton
    (state (session (rt := Samples.offlineRuntime) 0 Samples.emptyStorage
              (Samples.question ++ Samples.evening)))
  = true.
Proof.
  refine (@reset_button_stays Samples.offlineRuntime 0 Samples.emptyStorage
            Samples.question Samples.evening _).
  vm_compute. reflexivity.
Defined.

Lemma save_failure_swallowed_witness :
  console (fst (render (rt := Samples.okRuntime) 30
                  (fst (resetChat (rt := Samples.okRuntime) 30
                          (initialWorld Samples.fullStorage)))))
  = [lit "Failed to save messages to cache"].
Proof.
  exact (proj1 (proj2
           (@save_failure_swallowed Samples.okRuntime 30
              (fst (resetChat (rt := Samples.okRuntime) 30
                      (initialWorld Samples.fullStorage)))
              eq_refl (or_intror eq_refl)))).
Defined.

End ChatFacts.

(* ===================================================================== *)
(** * The settings form *)
(* ===================================================================== *)

Module ConfigFacts.
Import Js Spec Config JsFacts.
Local Open Scope js_scope.

Section Facts.
Context `{rt : Runtime}.

Ltac fields :=
  cbn [fst snd aiSettings isLoading message requests console refreshes
       negb orb andb lt gt of_Z within] in *.

Ltac run :=
  unfold handleSave, handleTest, call_fetch, call_refreshConfig,
    setAiSettings, setIsLoading, showMessage, console_error,
    try_catch, try_finally, bind, ret, throw, get, modify, settle in *;
  fields.

Ltac split_match :=
  match goal with
  | |- context [match ?x with _ => _ end] =>
      lazymatch x with
      | context [match _ with _ => _ end] => fail
      | _ => destruct x eqn:?
      end
  end;
  fields.

(* Names the outcome of a handler, so that the handler occurs once. *)
Ltac isolate h :=
  let r := fresh "r" in
  let E := fresh "E" in
  remember h as r eqn:E; revert E.

Ltac enter :=
  unfold handleSave, handleTest; unfold bind at 1; unfold get at 1;
  rewrite ?trim_truthy.

Ltac conclude :=
  run; repeat split_match; intros ->; fields; eauto.

(** C4 (where the code departs from it). With the feature enabled, the
    three texts filled in and the temperature in range, a token limit that
    is [NaN] lies outside 1..4000, and yet [handleSave] shows no validation
    error and submits the settings to the persistence endpoint. *)
Theorem handleSave_accepts_NaN (w : World) :
  let s := aiSettings w in
  enabled s = true ->
  blank (apiUrl s) = false -> blank (apiKey s) = false ->
  blank (model s) = false ->
  within 0 2 (temperature s) = true ->
  maxTokens s = NaN ->
  must_reject s = true
  /\ requests (fst (handleSave w)) = requests w ++ [saveRequest s].
Proof.
  intros s He Hu Hk Hm Ht Hx. subst s. split.
  - unfold must_reject. rewrite Hx. simpl. apply orb_true_r.
  - isolate (handleSave w). enter. rewrite He, Hu, Hk, Hm, Hx.
    destruct (temperature (aiSettings w)) as [| neg | q]; try discriminate.
    unfold within in Ht. apply andb_prop in Ht. destruct Ht as [H0 H2].
    unfold lt, gt, lt, of_Z. rewrite H0, H2. conclude.
Qed.

(** X14. For settings whose two numbers are numbers (not [NaN]) the
    validation is as specified: with the feature enabled the save is refused, with an
    error shown and nothing sent, exactly for the settings that must be
    refused; with the feature disabled nothing is validated and the
    settings are submitted. *)
Lemma handleSave_validates_numbers (w : World) :
  let s := aiSettings w in
  let w' := fst (handleSave w) in
  temperature s <> NaN -> maxTokens s <> NaN ->
  (enabled s = true -> must_reject s = true ->
   requests w' = requests w /\ isLoading w' = isLoading w
   /\ exists text, message w' = Some {| type := error; text := text |})
  /\ (enabled s = true -> must_reject s = false ->
      requests w' = requests w ++ [saveRequest s])
  /\ (enabled s = false -> requests w' = requests w ++ [saveRequest s]).
Proof.
  intros s w' Ht Hx. subst s w'. unfold must_reject.
  repeat apply conj.
  - intros He Hr. isolate (handleSave w). enter. rewrite He.
    destruct (blank (apiUrl (aiSettings w))); [conclude |].
    destruct (blank (apiKey (aiSettings w))); [conclude |].
    destruct (blank (model (aiSettings w))); [conclude |].
    destruct (temperature (aiSettings w)) as [| [|] | q]; try congruence;
      [conclude | conclude |].
    destruct (maxTokens (aiSettings w)) as [| [|] | x]; try congruence;
      unfold lt, gt, lt, within, of_Z in *;
      destruct (Qle_bool (inject_Z 0) q), (Qle_bool q (inject_Z 2));
      try (conclude; fail).
    destruct (Qle_bool (inject_Z 1) x), (Qle_bool x (inject_Z 4000));
      try (conclude; fail).
    discriminate.
  - intros He Hr. isolate (handleSave w). enter. rewrite He.
    apply orb_false_elim in Hr. destruct Hr as [Hr Hx'].
    apply orb_false_elim in Hr. destruct Hr as [Hr Ht'].
    apply orb_false_elim in Hr. destruct Hr as [Hr Hm].
    apply orb_false_elim in Hr. destruct Hr as [Hu Hk].
    rewrite Hu, Hk, Hm. fields.
    destruct (temperature (aiSettings w)) as [| neg | q]; try discriminate.
    destruct (maxTokens (aiSettings w)) as [| neg | x]; try discriminate.
    unfold within in Ht', Hx'. apply negb_false_iff in Ht', Hx'.
    apply andb_prop in Ht', Hx'. destruct Ht' as [H0 H2], Hx' as [H1 H4].
    unfold lt, gt, lt, of_Z. rewrite H0, H2, H1, H4. conclude.
  - intros He. isolate (handleSave w). enter. rewrite He. conclude.
Qed.

(** C8, amended. The connectivity test is blocked, with an error shown
    and no request sent, exactly when the endpoint or the key is blank;
    otherwise it sends one POST to [/api/admin/ai-recommend/test] whose
    body is the three fields [apiUrl], [apiKey] and [model] of the current
    settings, whether or not the model is blank. *)
Theorem handleTest_gate (w : World) :
  let s := aiSettings w in
  let w' := fst (handleTest w) in
  (blank (apiUrl s) || blank (apiKey s) = true ->
   requests w' = requests w
   /\ message w' = Some {| type := error; text := MSG_TEST_FILL_FIRST |})
  /\ (blank (apiUrl s) || blank (apiKey s) = false ->
      requests w' = requests w ++ [testRequest s]).
Proof.
  cbv zeta. split; intros Hb; isolate (handleTest w); enter.
  - apply orb_prop in Hb. destruct Hb as [-> | ->];
      rewrite ?orb_true_r; conclude.
  - apply orb_false_elim in Hb. destruct Hb as [-> ->]. conclude.
Qed.

(** ** More about the form *)

(** X15. What a save leaves, in every case. The settings and the console
    are never touched. Either validation stopped it: an error is shown,
    nothing is sent or refreshed, [isLoading] is as before. Or exactly one
    request left: [isLoading] ends false, the configuration was refreshed
    exactly when the server answered ok, and the message last shown is an
    error exactly when the save did not go through, that is unless the
    server answered ok and the refresh succeeded. (After a save that went
    through the success message was shown before the refresh was awaited;
    whether it still stands when the handler ends is up to the timers and
    is not stated.) *)
Theorem handleSave_outcome (w : World) :
  let w' := fst (handleSave w) in
  let request := saveRequest (aiSettings w) in
  aiSettings w' = aiSettings w /\ console w' = console w
  /\ ((requests w' = requests w /\ refreshes w' = refreshes w
       /\ isLoading w' = isLoading w
       /\ exists text, message w' = Some {| type := error; text := text |})
      \/ (requests w' = requests w ++ [request]
          /\ isLoading w' = false
          /\ (refreshes w' = S (refreshes w)
              <-> exists response,
                    fetch request = Normal response
                    /\ Response.ok response = true)
          /\ (refreshes w' = S (refreshes w) \/ refreshes w' = refreshes w)
          /\ ((exists text, message w' = Some {| type := error; text := text |})
              <-> ~ exists response,
                      fetch request = Normal response
                      /\ Response.ok response = true
                      /\ refreshConfig = Normal tt))).
Proof.
  cbv zeta. isolate (handleSave w). unfold saveRequest, handleSave.
  unfold bind at 1. unfold get at 1. unfold bind at 1.
  match goal with
  | |- context [match ?v w with _ => _ end] =>
      assert (Hv : v w = (w, Normal true)
                   \/ exists text,
                        v w = (fst (showMessage error text w), Normal false))
  end.
  { unfold lt, gt, lt, of_Z. run.
    repeat split_match; eauto. }
  destruct Hv as [-> | (text & ->)].
  - run.
    repeat split_match; intros ->; fields;
      repeat match goal with
             | H : negb _ = true |- _ => apply negb_true_iff in H
             | H : negb _ = false |- _ => apply negb_false_iff in H
             | u : unit |- _ => destruct u
             end;
      (split; [reflexivity | split; [reflexivity |]]);
      right;
      (split; [reflexivity | split; [reflexivity |]]);
      (split;
       [ split; [intros ? | intros (response & ? & ?)];
         simplify_eq; eauto; try congruence; lia
       | split;
         [ first [left; reflexivity | right; reflexivity]
         | unfold not;
           split; [intros (text & ?) (response & ? & ? & ?) | intros Hn];
           simplify_eq; try congruence; eauto;
           exfalso; apply Hn; eauto ] ]).
  - run. intros ->. fields. repeat split; auto. left. repeat split; eauto.
Qed.

Ltac tidy :=
  repeat match goal with
         | H : negb _ = true |- _ => apply negb_true_iff in H
         | H : negb _ = false |- _ => apply negb_false_iff in H
         | u : unit |- _ => destruct u
         end.

(** X16. A connectivity test that reaches the server: the settings are
    untouched, nothing is refreshed, [isLoading] ends false; an ok answer
    shows the success message and logs nothing; any other answer is logged
    and shows the error field of its JSON body (the fixed text when the
    field is missing or empty), or [HTTP <status>: <statusText>] when the
    body is no JSON. *)
Theorem handleTest_outcome (w : World) (response : Response.t) :
  blank (apiUrl (aiSettings w)) = false ->
  blank (apiKey (aiSettings w)) = false ->
  fetch (testRequest (aiSettings w)) = Normal response ->
  let w' := fst (handleTest w) in
  aiSettings w' = aiSettings w /\ refreshes w' = refreshes w
  /\ isLoading w' = false
  /\ if Response.ok response
     then message w' = Some {| type := success; text := MSG_TEST_OK |}
          /\ console w' = console w
     else message w'
          = Some {| type := error;
                    text :=
                      match Response.json response with
                      | Normal errorData =>
                          or_else (error_field errorData) MSG_TEST_FAILED
                      | Abrupt _ =>
                          lit "HTTP "
                          ++ String_of_status (Response.status response)
                          ++ lit ": " ++ Response.statusText response
                      end |}
          /\ console w' = console w ++ [TEST_ERROR_LOG].
Proof.
  intros Hu Hk Hfetch. cbv zeta. isolate (handleTest w).
  unfold testRequest in Hfetch. unfold handleTest.
  unfold bind at 1. unfold get at 1. rewrite !trim_truthy, Hu, Hk.
  cbn [negb orb]. run. rewrite Hfetch.
  destruct (Response.ok response); fields.
  - intros ->. fields. auto.
  - destruct (Response.json response); fields; intros ->; fields; auto.
Qed.


(** X17. Loading a stored configuration never leaves the endpoint or the
    model empty (a missing or empty one is replaced by its default), keeps
    stored numbers and the stored switch as they are, zero and [false]
    included, turns the feature off when the switch is missing, and keeps
    every stored text that is not empty. *)
Theorem loadConfig_defaults (config : AdminConfig.AIRecommend) (w : World) :
  let s := aiSettings (fst (loadConfig
             (Some {| AdminConfig.AIRecommendConfig := Some config |}) w)) in
  truthy (apiUrl s) = true /\ truthy (model s) = true
  /\ (forall x, AdminConfig.temperature config = Some x -> temperature s = x)
  /\ (forall x, AdminConfig.maxTokens config = Some x -> maxTokens s = x)
  /\ (forall b, AdminConfig.enabled config = Some b -> enabled s = b)
  /\ (AdminConfig.enabled config = None -> enabled s = false)
  /\ (forall text, truthy text = true ->
        (AdminConfig.apiUrl config = Some text -> apiUrl s = text)
        /\ (AdminConfig.apiKey config = Some text -> apiKey s = text)
        /\ (AdminConfig.model config = Some text -> model s = text)).
Proof.
  cbv zeta. unfold loadConfig, setAiSettings, modify. simpl.
  repeat apply conj.
  - unfold or_else. destruct (AdminConfig.apiUrl config) as [u |]; [| reflexivity].
    destruct (truthy u) eqn:E; [exact E | reflexivity].
  - unfold or_else. destruct (AdminConfig.model config) as [u |]; [| reflexivity].
    destruct (truthy u) eqn:E; [exact E | reflexivity].
  - intros x ->. reflexivity.
  - intros x ->. reflexivity.
  - intros b ->. reflexivity.
  - intros ->. reflexivity.
  - intros text Ht. unfold or_else.
    repeat split; intros ->; rewrite Ht; reflexivity.
Qed.

(** X18. Settings whose endpoint and model are not empty come back
    unchanged when loaded from a configuration that stores them. *)
Theorem loadConfig_round_trip (s : AISettings) (w : World) :
  truthy (apiUrl s) = true -> truthy (model s) = true ->
  aiSettings (fst (loadConfig (Some (configOf s)) w)) = s.
Proof.
  intros Hu Hm. unfold loadConfig, configOf, setAiSettings, modify, or_else.
  simpl. rewrite Hu, Hm. destruct s as [e u k m t x]. simpl.
  destruct k; reflexivity.
Qed.

(** Without a configuration, or without its AI part, nothing is loaded. *)
Lemma loadConfig_absent (w : World) :
  fst (loadConfig None w) = w
  /\ fst (loadConfig (Some {| AdminConfig.AIRecommendConfig := None |}) w) = w.
Proof. split; reflexivity. Qed.

End Facts.

(** X19. The model name taken from an example label is the label up to
    its first [ (]: the label is the name alone or the name, [ (] and a
    rest, and the name itself contains no [ (]. *)
Theorem modelNameOf_spec (example : JsString) :
  let name := modelNameOf example in
  (example = name \/ exists vendor, example = name ++ lit " (" ++ vendor)
  /\ includes name (lit " (") = false.
Proof.
  cbv zeta. unfold modelNameOf.
  destruct (split_from_hd (lit " (") example []) as (pre & Hhd & Hs & Hin);
    [discriminate |].
  change (split (lit " (") example)
    with (split_from (lit " (") example 0 []).
  rewrite Hhd. simpl. auto.
Qed.

(** X20. Clicking one of the listed examples fills in a model name that
    the validation of a save accepts (not blank), the label without its
    vendor note, and changes no other field, sends nothing and shows
    nothing. *)
Theorem example_fills_model (example : JsString) (w : World) :
  In example MODEL_EXAMPLES ->
  let w' := fst (onExampleClick example w) in
  blank (model (aiSettings w')) = false
  /\ includes (model (aiSettings w')) (lit " (") = false
  /\ (exists vendor, example = model (aiSettings w') ++ lit " (" ++ vendor)
  /\ aiSettings w'
     = {| enabled := enabled (aiSettings w); apiUrl := apiUrl (aiSettings w);
          apiKey := apiKey (aiSettings w); model := modelNameOf example;
          temperature := temperature (aiSettings w);
          maxTokens := maxTokens (aiSettings w) |}
  /\ requests w' = requests w /\ message w' = message w.
Proof.
  intros Hin. cbv zeta.
  change (aiSettings (fst (onExampleClick example w)))
    with {| enabled := enabled (aiSettings w);
            apiUrl := apiUrl (aiSettings w);
            apiKey := apiKey (aiSettings w);
            model := modelNameOf example;
            temperature := temperature (aiSettings w);
            maxTokens := maxTokens (aiSettings w) |}.
  cbn [model].
  assert (Hex : blank (modelNameOf example) = false
                /\ includes (modelNameOf example) (lit " (") = false
                /\ exists vendor,
                     example = modelNameOf example ++ lit " (" ++ vendor).
  { unfold MODEL_EXAMPLES in Hin. cbn [In] in Hin.
    repeat (destruct Hin as [<- | Hin];
            [repeat apply conj;
             [vm_compute; reflexivity | vm_compute; reflexivity
             | eexists; vm_compute; reflexivity] |]).
    destruct Hin. }
  destruct Hex as (Hb & Hi & Hv).
  repeat apply conj; auto.
Qed.

Lemma elapse_message (now : Z) (tw : Timed) :
  message (world (elapse now tw))
  = if existsb (fun due => due <=? now) (timers tw)
    then None else message (world tw).
Proof.
  unfold elapse. cbn [world].
  destruct (existsb _ (timers tw)); reflexivity.
Qed.

Lemma showMessage_at_own_timer (now : Z) (type : MessageType)
    (text : JsString) (tw : Timed) :
  In (now + 3000) (timers (showMessage_at now type text tw)).
Proof.
  unfold showMessage_at, elapse. cbn [timers].
  apply in_or_app. right. left. reflexivity.
Qed.

Lemma showMessage_at_keeps_timers (now : Z) (type : MessageType)
    (text : JsString) (tw : Timed) (due : Z) :
  In due (timers tw) -> now < due ->
  In due (timers (showMessage_at now type text tw)).
Proof.
  unfold showMessage_at, elapse. cbn [timers].
  intros Hin Hlt. apply in_or_app. left. apply filter_In.
  split; [exact Hin |]. apply negb_true_iff, Z.leb_gt. lia.
Qed.

(** X21. The timers are never cancelled: a second message shown less than
    three seconds after a first one is taken down by the first one's
    timer, three seconds after the first was shown. *)
Theorem toast_cut_short (t0 t1 : Z) (type0 type1 : MessageType)
    (text0 text1 : JsString) (tw : Timed) :
  t0 <= t1 < t0 + 3000 ->
  let shown := showMessage_at t1 type1 text1
                 (showMessage_at t0 type0 text0 tw) in
  message (world shown) = Some {| type := type1; text := text1 |}
  /\ message (world (elapse (t0 + 3000) shown)) = None.
Proof.
  intros Ht. cbv zeta. split; [reflexivity |].
  rewrite elapse_message.
  replace (existsb _ _) with true; [reflexivity |].
  symmetry. apply existsb_exists. exists (t0 + 3000). split.
  - apply showMessage_at_keeps_timers; [| lia].
    apply showMessage_at_own_timer.
  - apply Z.leb_le. lia.
Qed.

(** X22. With no earlier timer still running, a message stays for three
    seconds and is gone from then on. *)
Theorem toast_lasts_three_seconds (t0 t : Z) (type : MessageType)
    (text : JsString) (tw : Timed) :
  Forall (fun due => due <= t0) (timers tw) ->
  let shown := showMessage_at t0 type text tw in
  (t0 <= t < t0 + 3000 ->
   message (world (elapse t shown)) = Some {| type := type; text := text |})
  /\ (t0 + 3000 <= t -> message (world (elapse t shown)) = None).
Proof.
  intros Hold. cbv zeta.
  assert (Ht : timers (showMessage_at t0 type text tw) = [t0 + 3000]).
  { unfold showMessage_at, elapse. cbn [timers].
    replace (List.filter _ (timers tw)) with (@nil Z); [reflexivity |].
    symmetry. induction Hold as [| due l Hd _ IH]; [reflexivity |].
    simpl. replace (due <=? t0) with true by (symmetry; apply Z.leb_le; lia).
    exact IH. }
  split; intros Hrange; rewrite elapse_message, Ht; cbn [existsb].
  - replace (t0 + 3000 <=? t) with false by (symmetry; apply Z.leb_gt; lia).
    reflexivity.
  - replace (t0 + 3000 <=? t) with true by (symmetry; apply Z.leb_le; lia).
    reflexivity.
Qed.

(** ** The theorems at sample inputs *)

(** Emptying the max-tokens field stores [NaN]. *)
Lemma emptied_field_is_NaN :
  maxTokens Samples.emptiedMaxTokens = NaN.
Proof. reflexivity. Qed.

Lemma handleSave_accepts_NaN_witness :
  requests (fst (handleSave (rt := Samples.configRuntime)
                   (worldOf Samples.emptiedMaxTokens)))
  = [saveRequest Samples.emptiedMaxTokens].
Proof.
  exact (proj2 (@handleSave_accepts_NaN Samples.configRuntime
                  (worldOf Samples.emptiedMaxTokens)
                  eq_refl eq_refl eq_refl eq_refl eq_refl eq_refl)).
Defined.

(** C8 as stated fails: with the model name blank and the endpoint and key
    filled in, the test is not blocked; the request leaves with the blank
    model and no error is shown. *)
Lemma handleTest_sends_with_blank_model :
  blank (model Samples.noModel) = true
  /\ requests (fst (handleTest (rt := Samples.configRuntime)
                      (worldOf Samples.noModel)))
     = [testRequest Samples.noModel]
  /\ message (fst (handleTest (rt := Samples.configRuntime)
                      (worldOf Samples.noModel)))
     = Some {| type := success; text := MSG_TEST_OK |}.
Proof. repeat apply conj; reflexivity. Qed.

Lemma handleTest_gate_witness :
  requests (fst (handleTest (rt := Samples.configRuntime)
                   (worldOf Samples.goodSettings)))
  = [testRequest Samples.goodSettings].
Proof.
  exact (proj2 (@handleTest_gate Samples.configRuntime
                  (worldOf Samples.goodSettings)) eq_refl).
Defined.

Lemma handleSave_validates_numbers_witness :
  requests (fst (handleSave (rt := Samples.configRuntime)
                   (worldOf Samples.goodSettings)))
  = [saveRequest Samples.goodSettings].
Proof.
  refine (proj1 (proj2 (@handleSave_validates_numbers Samples.configRuntime
                          (worldOf Samples.goodSettings) _ _))
            eq_refl eq_refl).
  - intros E. discriminate E.
  - intros E. discriminate E.
Defined.

Lemma handleSave_outcome_witness :
  exists text,
    message (fst (handleSave (rt := Samples.refusingRuntime)
                    (worldOf Samples.goodSettings)))
    = Some {| type := error; text := text |}.
Proof.
  destruct (@handleSave_outcome Samples.refusingRuntime
              (worldOf Samples.goodSettings))
    as (_ & _ & [(H & _) | (_ & _ & _ & _ & H)]).
  - vm_compute in H. discriminate H.
  - apply H. intros (response & Hf & Hok & _).
    cbv in Hf. injection Hf as <-. discriminate Hok.
Defined.

Lemma handleTest_outcome_witness :
  message (fst (handleTest (rt := Samples.refusingRuntime)
                  (worldOf Samples.goodSettings)))
  = Some {| type := error; text := lit "HTTP 502: Bad Gateway" |}.
Proof.
  exact (proj1 (proj2 (proj2 (proj2
           (@handleTest_outcome Samples.refusingRuntime
              (worldOf Samples.goodSettings) _ eq_refl eq_refl eq_refl))))).
Defined.

Lemma loadConfig_defaults_witness :
  temperature
    (aiSettings
       (fst (loadConfig
               (Some {| AdminConfig.AIRecommendConfig :=
                          Some Samples.storedConfig |})
               (worldOf Samples.goodSettings))))
  = of_Z 0.
Proof.
  exact (proj1 (proj2 (proj2
           (loadConfig_defaults Samples.storedConfig
              (worldOf Samples.goodSettings)))) (of_Z 0) eq_refl).
Defined.

Lemma loadConfig_round_trip_witness :
  aiSettings (fst (loadConfig (Some (configOf Samples.goodSettings))
                     (worldOf initialSettings)))
  = Samples.goodSettings.
Proof.
  exact (loadConfig_round_trip Samples.goodSettings (worldOf initialSettings)
           eq_refl eq_refl).
Defined.

Lemma example_fills_model_witness :
  blank (model (aiSettings
                  (fst (onExampleClick (lit "claude-4-sonnet (Anthropic)")
                          (worldOf Samples.noModel)))))
  = false.
Proof.
  refine (proj1 (example_fills_model (lit "claude-4-sonnet (Anthropic)")
                   (worldOf Samples.noModel) _)).
  do 3 right. left. reflexivity.
Defined.

Lemma toast_cut_short_witness :
  message (world (elapse 3000
                    (showMessage_at 1000 error MSG_FILL_KEY
                       (showMessage_at 0 success MSG_SAVE_OK
                          Samples.quietForm))))
  = None.
Proof.
  refine (proj2 (toast_cut_short 0 1000 success error MSG_SAVE_OK MSG_FILL_KEY
                   Samples.quietForm _)).
  lia.
Defined.

Lemma toast_lasts_three_seconds_witness :
  message (world (elapse 2999
                    (showMessage_at 0 success MSG_SAVE_OK Samples.quietForm)))
  = Some {| type := success; text := MSG_SAVE_OK |}.
Proof.
  refine (proj1 (toast_lasts_three_seconds 0 2999 success MSG_SAVE_OK
                   Samples.quietForm _) _).
  - constructor.
  - lia.
Defined.

End ConfigFacts.
